(** * A shallow embedding of the taskw_gcal_sync reconciliation core

    Sources embedded here:
    - [taskw_gcal_sync/TWGCalAggregator.py]: [__init__], [register_items],
      [compare_tw_gcal_items], [convert_tw_to_gcal], [convert_gcal_to_tw],
      [_parse_gcal_item_desc];
    - [taskw_gcal_sync/TaskWarriorSide.py]: [__init__], [add_item];
    - [taskw_gcal_sync/scripts/tw_gcal_sync.py]: [main].

    Python dicts with string keys are [gmap string value]; the nested
    [start]/[end] dicts of a calendar event are association lists.  Every
    method runs in a small state-and-exception monad [M]: the state holds the
    correspondence table (a [bidict]), the calls made to the external stores
    and the log.  A raised exception keeps the state reached so far, as a
    Python exception keeps the mutations made before it. *)

From Stdlib Require Import String Ascii ZArith Lia.
From stdpp Require Import base gmap strings list pretty.

Open Scope string_scope.

(* ------------------------------------------------------------------ *)
(** ** Python string operations on ASCII strings *)

Module PyStr.

(** [str.isspace] on ASCII: \t \n \v \f \r, the separators \x1c-\x1f, space. *)
Definition is_space (a : ascii) : bool :=
  let n := nat_of_ascii a in
  (((9 <=? n) && (n <=? 13)) || ((28 <=? n) && (n <=? 32)))%nat.

Fixpoint lstrip (s : string) : string :=
  match s with
  | EmptyString => EmptyString
  | String a s' => if is_space a then lstrip s' else s
  end.

Fixpoint rev (s : string) : string :=
  match s with
  | EmptyString => EmptyString
  | String a s' => rev s' ++ String a EmptyString
  end.

Definition rstrip (s : string) : string := rev (lstrip (rev s)).

(** [s.strip()] *)
Definition strip (s : string) : string := rstrip (lstrip s).

Definition lower_char (a : ascii) : ascii :=
  let n := nat_of_ascii a in
  if ((65 <=? n) && (n <=? 90))%nat then ascii_of_nat (n + 32)%nat else a.

(** [s.lower()] *)
Fixpoint lower (s : string) : string :=
  match s with
  | EmptyString => EmptyString
  | String a s' => String (lower_char a) (lower s')
  end.

(** [c in s] *)
Fixpoint has_char (c : ascii) (s : string) : bool :=
  match s with
  | EmptyString => false
  | String a s' => bool_decide (a = c) || has_char c s'
  end.

(** [s.startswith(p)] *)
Fixpoint startswith (s p : string) : bool :=
  match p, s with
  | EmptyString, _ => true
  | String b p', String a s' => bool_decide (a = b) && startswith s' p'
  | String _ _, EmptyString => false
  end.

(** [s.split(c)] for a one-character separator: never empty. *)
Fixpoint split (c : ascii) (s : string) : list string :=
  match s with
  | EmptyString => [EmptyString]
  | String a s' =>
      if bool_decide (a = c) then EmptyString :: split c s'
      else match split c s' with
           | h :: t => String a h :: t
           | [] => [String a EmptyString]
           end
  end.

(** The text before and after the first [c], if there is one. *)
Fixpoint break_at (c : ascii) (s : string) : option (string * string) :=
  match s with
  | EmptyString => None
  | String a s' =>
      if bool_decide (a = c) then Some (EmptyString, s')
      else match break_at c s' with
           | Some (b, r) => Some (String a b, r)
           | None => None
           end
  end.

(** [s.split(c, maxsplit=1)] *)
Definition split1 (c : ascii) (s : string) : list string :=
  match break_at c s with
  | Some (b, r) => [b; r]
  | None => [s]
  end.

End PyStr.

Definition nl : ascii := Ascii.ascii_of_nat 10.
Definition colon : ascii := ":"%char.
Definition nl_s : string := String nl EmptyString.

(** A small instance of the external collaborators, used by the examples at
    the end: two uuids written ["u-1"] and ["u-2"], and timestamps counted
    in days, formatted for the calendar as that many ['x'] characters. *)
Module Sample.

Inductive cuuid := U1 | U2.

#[export] Instance cuuid_eq_dec : EqDecision cuuid.
Proof. solve_decision. Defined.

Definition cuuid_str (u : cuuid) : string :=
  match u with U1 => "u-1" | U2 => "u-2" end.

Definition cuuid_parse (s : string) : option cuuid :=
  if bool_decide (s = "u-1") then Some U1
  else if bool_decide (s = "u-2") then Some U2 else None.

Definition cdt_str (d : nat) : string := pretty d.

Fixpoint cformat (d : nat) : string :=
  match d with O => EmptyString | S d' => String "x" (cformat d') end.

Definition cparse (s : string) : nat := String.length s.

End Sample.

(* ------------------------------------------------------------------ *)
(** ** Python values, exceptions, the log *)

Section Model.

(** [uuid.UUID] and [datetime.datetime] values, with what the program uses
    of them: [str(u)], [UUID(s)] (None = [ValueError]), [str(d)],
    [d + timedelta(days=1)], and [GCalSide.format_datetime] /
    [GCalSide.parse_datetime].  [GCalSide] is code of this repository that
    is not under src/; its two functions stay parameters here, and the
    theorems that need them to be inverse take that as a hypothesis, as
    the spec says ("formatted as an absolute instant"). *)
Context {uuid datetime : Type} `{EqDecision uuid, EqDecision datetime}.
Variable uuid_str : uuid -> string.
Variable uuid_parse : string -> option uuid.
Variable datetime_str : datetime -> string.
Variable add_one_day : datetime -> datetime.
Variable format_datetime : datetime -> string.
Variable parse_datetime : string -> datetime.

Inductive value :=
| VStr (s : string)
| VUuid (u : uuid)
| VDate (d : datetime)
| VInt (z : Z)
| VList (l : list string)
| VDict (d : list (string * string)).

#[local] Instance value_eq_dec : EqDecision value.
Proof. solve_decision. Defined.

Abbreviation item := (gmap string value).

Inductive exn :=
| KeyError (k : string)
| AssertionError
| TypeError
| AttributeError
| RuntimeError
| ValueDuplicationError
| KeyAndValueDuplicationError
| AdapterError (code : nat).

Inductive log := LInfo (m : string) | LWarn (m : string) | LError (m : string).

Inductive side := TWSide | GCalSideS.

(** A Python list of strings, as [repr] prints it (without escaping). *)
Definition repr_list (l : list string) : string :=
  "[" ++ String.concat ", " (map (fun s => "'" ++ s ++ "'") l) ++ "]".

Definition repr_dict (d : list (string * string)) : string :=
  "{" ++ String.concat ", " (map (fun kv => "'" ++ kv.1 ++ "': '" ++ kv.2 ++ "'") d)
  ++ "}".

(** ['{}'.format(v)], i.e. [str(v)] *)
Definition py_str (v : value) : string :=
  match v with
  | VStr s => s
  | VUuid u => uuid_str u
  | VDate d => datetime_str d
  | VInt z => pretty z
  | VList l => repr_list l
  | VDict d => repr_dict d
  end.


(** The correspondence table: the [bidict] of (key, value) items, in
    insertion order, forward direction task id -> calendar id. *)
Abbreviation table := (list (value * value)).

Record world := mkWorld {
  w_table : table;
  w_calls : list (side * item);
  w_logs : list log;
}.

Inductive result (A : Type) := Ok (a : A) | Err (e : exn).
Arguments Ok {A} a.
Arguments Err {A} e.

(** A method: state in, outcome and state out. *)
Definition M (A : Type) := world -> result A * world.

Definition ret {A} (a : A) : M A := fun w => (Ok a, w).
Definition raise {A} (e : exn) : M A := fun w => (Err e, w).
Definition bind {A B} (m : M A) (f : A -> M B) : M B :=
  fun w => match m w with
           | (Ok a, w') => f a w'
           | (Err e, w') => (Err e, w')
           end.

#[local] Instance M_ret : MRet M := @ret.
#[local] Instance M_bind : MBind M := fun A B f m => bind m f.

Definition emit (l : log) : M unit :=
  fun w => (Ok tt, mkWorld (w_table w) (w_calls w) (w_logs w ++ [l])).

Definition py_assert (b : bool) : M unit :=
  if b then ret tt else raise AssertionError.

(** [d[k]] *)
Definition getitem (d : item) (k : string) : M value :=
  match d !! k with Some v => ret v | None => raise (KeyError k) end.

(** [d[k]] on a nested dict such as [start] *)
Definition getitem_assoc (d : list (string * string)) (k : string) : M string :=
  match list_find (fun kv => kv.1 = k) d with
  | Some (_, kv) => ret kv.2
  | None => raise (KeyError k)
  end.

Definition as_dict (v : value) : M (list (string * string)) :=
  match v with VDict d => ret d | _ => raise TypeError end.

Definition as_datetime (v : value) : M datetime :=
  match v with VDate d => ret d | _ => raise TypeError end.

(** [for x in v] over the value stored under [annotations] *)
Definition py_iter (v : value) : M (list string) :=
  match v with
  | VList l => ret l
  | VStr s => ret (map (fun a => String a EmptyString) (list_ascii_of_string s))
  | VDict d => ret (map fst d)
  | _ => raise TypeError
  end.

Definition statuses : list string :=
  ["pending"; "completed"; "deleted"; "waiting"; "recurring"].

(* ------------------------------------------------------------------ *)
(** ** [TWGCalAggregator.convert_tw_to_gcal] *)

Definition meta_title : string := "IMPORTED FROM TASKWARRIOR".

(** ['* Annotation {}: {}'.format(i+1, a)] *)
Definition annotation_text (i : nat) (a : string) : string :=
  "* Annotation " ++ pretty (S i) ++ ": " ++ a.

(** The loop [for i, a in enumerate(...): desc += '\n' + annotation_text]. *)
Fixpoint annotation_lines (i : nat) (l : list string) : string :=
  match l with
  | [] => EmptyString
  | a :: l' => nl_s ++ annotation_text i a ++ annotation_lines (S i) l'
  end.

(** The annotation lines as a list, one per annotation. *)
Fixpoint annotation_texts (i : nat) (l : list string) : list string :=
  match l with
  | [] => []
  | a :: l' => annotation_text i a :: annotation_texts (S i) l'
  end.

Definition convert_tw_to_gcal (tw_item : item) : M item :=
  py_assert (bool_decide (is_Some (tw_item !! "description")) &&
             bool_decide (is_Some (tw_item !! "status")) &&
             bool_decide (is_Some (tw_item !! "uuid")));;
  desc_v ← getitem tw_item "description";
  (* gcal_item['description'] = "{meta_title}\n" plus the annotations *)
  anns ← (match tw_item !! "annotations" with
           | Some v => l ← py_iter v; ret (annotation_lines 0 l)
           | None => ret EmptyString
           end);
  status_v ← getitem tw_item "status";
  uuid_v ← getitem tw_item "uuid";
  let desc := meta_title ++ nl_s ++ anns ++ nl_s
              ++ nl_s ++ "* status: " ++ py_str status_v
              ++ nl_s ++ "* uuid: " ++ py_str uuid_v in
  entry_v ← getitem tw_item "entry";
  entry ← as_datetime entry_v;
  end_dt ← (match tw_item !! "due" with
             | Some due_v => due ← as_datetime due_v; ret (format_datetime due)
             | None => ret (format_datetime (add_one_day entry))
             end);
  ret (<["summary" := desc_v]>
       (<["description" := VStr desc]>
        (<["start" := VDict [("dateTime", format_datetime entry)]]>
         (<["end" := VDict [("dateTime", end_dt)]]> ∅)))).


(* ------------------------------------------------------------------ *)
(** ** [TWGCalAggregator._parse_gcal_item_desc] *)

(** [lines = [l.strip() for l in gcal_desc.split('\n') if l][1:]] *)
Definition desc_lines (gcal_desc : string) : list string :=
  drop 1 (map PyStr.strip
                (filter (fun l => l ≠ EmptyString) (PyStr.split nl gcal_desc))).

Definition is_annotation_line (l : string) : option string :=
  match PyStr.split1 colon l with
  | [p0; p1] =>
      if PyStr.startswith (PyStr.lower p0) "* annotation"
      then Some (PyStr.strip p1) else None
  | _ => None
  end.

(** The loop [for i, l in enumerate(lines): ... else: break]: the
    annotations appended and the final value of [i] ([cur] is its value
    before the current line, [idx] the index of the current line). *)
Fixpoint annotation_loop (idx cur : nat) (ls : list string) : list string * nat :=
  match ls with
  | [] => ([], cur)
  | l :: ls' =>
      match is_annotation_line l with
      | Some a => let '(anns, i) := annotation_loop (S idx) idx ls' in (a :: anns, i)
      | None => ([], idx)
      end
  end.

(** The loop over [lines[i:]] looking for the status and uuid lines. *)
Fixpoint scan_lines (ls : list string) (status : string) (u : option uuid)
  : M (string * option uuid) :=
  match ls with
  | [] => ret (status, u)
  | l :: ls' =>
      match PyStr.split1 colon l with
      | [p0; p1] =>
          let start := PyStr.lower p0 in
          if PyStr.startswith start "* status" then
            scan_lines ls' (PyStr.lower (PyStr.strip p1)) u
          else if PyStr.startswith start "* uuid" then
            match uuid_parse (PyStr.strip p1) with
            | Some u' => scan_lines ls' status (Some u')
            | None =>
                emit (LError "Invalid UUID provided during GCal -> TW conversion, Using None...");;
                scan_lines ls' status u
            end
          else scan_lines ls' status u
      | _ => scan_lines ls' status u
      end
  end.

Definition parse_gcal_item_desc (gcal_item : item)
  : M (list string * string * option uuid) :=
  match gcal_item !! "description" with
  | None => ret ([], "pending", None)
  | Some desc_v =>
      match desc_v with
      | VStr gcal_desc =>
          let lines := desc_lines gcal_desc in
          let '(annotations, i) := annotation_loop 0 0 lines in
          if bool_decide (Z.of_nat i = (Z.of_nat (length lines) - 1)%Z)
          then ret (annotations, "pending", None)
          else '(status, u) ← scan_lines (drop i lines) "pending" None;
               ret (annotations, status, u)
      | _ => raise AttributeError   (* [.split] on a non-string *)
      end
  end.

(* ------------------------------------------------------------------ *)
(** ** [TWGCalAggregator.convert_gcal_to_tw] *)

Definition convert_gcal_to_tw (gcal_item : item) : M item :=
  '(annotations, status, u) ← parse_gcal_item_desc gcal_item;
  let tw1 : item := <["annotations" := VList annotations]> ∅ in
  tw2 ← (if bool_decide (status ∈ statuses) then ret (<["status" := VStr status]> tw1)
         else emit (LWarn ("Invalid status " ++ status ++
                           " in GCal->TW conversion of item. Skipping status:"));;
              ret tw1);
  let tw3 := match u with Some u' => <["uuid" := VUuid u']> tw2 | None => tw2 end in
  summary ← getitem gcal_item "summary";
  let tw4 := <["description" := summary]> tw3 in
  start ← getitem gcal_item "start";
  start_d ← as_dict start;
  start_dt ← getitem_assoc start_d "dateTime";
  let tw5 := <["entry" := VDate (parse_datetime start_dt)]> tw4 in
  end_v ← getitem gcal_item "end";
  end_d ← as_dict end_v;
  end_dt ← getitem_assoc end_d "dateTime";
  ret (<["due" := VDate (parse_datetime end_dt)]> tw5).


(* ------------------------------------------------------------------ *)
(** ** The [bidict] correspondence table

    [b[k] = v] with bidict's default duplication policy
    ([on_dup = OnDup(key=DROP_OLD, val=RAISE, kv=RAISE)]): a new key whose
    value is already bound raises [ValueDuplicationError]; a bound key is
    re-bound in place; a key and a value bound in two different items raise
    [KeyAndValueDuplicationError]; re-setting an existing item does nothing. *)

Definition tbl_get (t : table) (k : value) : option value :=
  match list_find (fun kv => kv.1 = k) t with Some (_, kv) => Some kv.2 | None => None end.
Definition tbl_inv_get (t : table) (v : value) : option value :=
  match list_find (fun kv => kv.2 = v) t with Some (_, kv) => Some kv.1 | None => None end.

Definition bidict_setitem (t : table) (k v : value) : result table :=
  match tbl_get t k, tbl_inv_get t v with
  | Some _, Some oldkey =>
      if bool_decide (k = oldkey) then Ok t else Err KeyAndValueDuplicationError
  | Some _, None => Ok ((fun kv => if bool_decide (kv.1 = k) then (k, v) else kv) <$> t)
  | None, Some _ => Err ValueDuplicationError
  | None, None => Ok (t ++ [(k, v)])%list
  end.

Definition swap_tbl (t : table) : table := (fun kv => (kv.2, kv.1)) <$> t.

(** [b.inverse[k] = v] *)
Definition bidict_inv_setitem (t : table) (k v : value) : result table :=
  match bidict_setitem (swap_tbl t) k v with
  | Ok t' => Ok (swap_tbl t')
  | Err e => Err e
  end.

(** [registered_ids]: the table itself ([inv = false]) or its inverse. *)
Definition view_keys (inv : bool) (t : table) : list value :=
  if inv then snd <$> t else fst <$> t.

(** The other column: the values of [registered_ids]. *)
Definition view_vals (inv : bool) (t : table) : list value :=
  if inv then fst <$> t else snd <$> t.

(** The item [registered_ids[k] = v] adds, in the forward direction. *)
Definition view_item (inv : bool) (k v : value) : value * value :=
  if inv then (v, k) else (k, v).

(** The bijection invariant: no id twice in either column. *)
Definition bij (t : table) : Prop := NoDup (fst <$> t) /\ NoDup (snd <$> t).

Definition set_registered (inv : bool) (k v : value) : M unit :=
  fun w =>
    match (if inv then bidict_inv_setitem else bidict_setitem) (w_table w) k v with
    | Ok t' => (Ok tt, mkWorld t' (w_calls w) (w_logs w))
    | Err e => (Err e, w)
    end.

Definition get_table : M table := fun w => (Ok (w_table w), w).

(* ------------------------------------------------------------------ *)
(** ** The side adapters' [add_item]

    A store's [add] sees the calls made before it (its store state) and
    returns the stored item or fails; each call into an external store is
    recorded in [w_calls] before it runs.  [GCalSide.add_item] and taskw's
    [TaskWarrior.task_add] are the external collaborators. *)
Variable gcal_add_item : item -> list (side * item) -> result item.
Variable tw_task_add : value -> item -> list (side * item) -> result item.

Definition call_store (s : side) (arg : item) (r : list (side * item) -> result item)
  : M item :=
  fun w => (r (w_calls w), mkWorld (w_table w) (w_calls w ++ [(s, arg)])%list (w_logs w)).

Definition dq : string := String (ascii_of_nat 34) EmptyString.

(** [len(v)] *)
Definition py_len (v : value) : M nat :=
  match v with
  | VStr s => ret (String.length s)
  | VList l => ret (length l)
  | VDict d => ret (length d)
  | _ => raise TypeError
  end.

(** ['{}'.format(v[0:n])] *)
Definition py_slice_str (v : value) (n : nat) : M string :=
  match v with
  | VStr s => ret (substring 0 n s)
  | VList l => ret (repr_list (take n l))
  | _ => raise TypeError
  end.

(** [TaskWarriorSide.add_item] *)
Definition tw_side_add_item (it : item) : M item :=
  py_assert (bool_decide (is_Some (it !! "description")));;
  d2 ← getitem it "desscription";
  n ← py_len d2;
  let len_print := Nat.min 10 n in
  d ← getitem it "description";
  shown ← py_slice_str d len_print;
  emit (LInfo ("Adding item - " ++ dq ++ shown ++ dq ++ "..."));;
  let rest := delete "description" it in
  call_store TWSide rest (tw_task_add d rest).

Definition side_add_item (s : side) (it : item) : M item :=
  match s with
  | GCalSideS => call_store GCalSideS it (gcal_add_item it)
  | TWSide => tw_side_add_item it
  end.

(* ------------------------------------------------------------------ *)
(** ** [TWGCalAggregator.register_items] *)

(** [self.config["{}_id_key".format(t)]] *)
Definition config_id_key (t : string) : M string :=
  if bool_decide (t = "tw") then ret "uuid"
  else if bool_decide (t = "gcal") then ret "htmlLink"
  else raise (KeyError (t ++ "_id_key")).

(** The body of the loop for an item whose id [v] is not registered yet. *)
Definition register_new (inv : bool) (s : side) (convert_fun : item -> M item)
    (opposite_type_key item_type : string) (it : item) (v : value) : M unit :=
  emit (LInfo ("Inserting item, [" ++ item_type ++ "] id: " ++ py_str v ++ "..."));;
  item_converted ← convert_fun it;
  item_registered ← side_add_item s item_converted;
  new_id ← getitem item_registered opposite_type_key;
  set_registered inv (VStr (py_str v)) new_id.

Fixpoint register_loop (inv : bool) (s : side) (convert_fun : item -> M item)
    (type_key opposite_type_key item_type : string) (items : list item) : M unit :=
  match items with
  | [] => ret tt
  | it :: rest =>
      v ← getitem it type_key;
      let _id := VStr (py_str v) in
      t ← get_table;
      if bool_decide (_id ∈ view_keys inv t) then
        register_loop inv s convert_fun type_key opposite_type_key item_type rest
      else
        register_new inv s convert_fun opposite_type_key item_type it v;;
        register_loop inv s convert_fun type_key opposite_type_key item_type rest
  end.

Definition register_items (items : list item) (item_type : string) : M unit :=
  py_assert (bool_decide (item_type ∈ ["tw"; "gcal"]));;
  let is_tw := bool_decide (item_type = "tw") in
  (* registered_ids = self.tw_gcal_ids if item_type == 'tw' else .inverse *)
  let inv := negb is_tw in
  (* side = self.gcal_side if item_type == "tw" else self.gcal_side *)
  let s := if is_tw then GCalSideS else GCalSideS in
  let convert_fun := if is_tw then convert_tw_to_gcal else convert_gcal_to_tw in
  type_key ← config_id_key item_type;
  let opposite_type := if is_tw then "gcal" else "tw" in
  opposite_type_key ← config_id_key opposite_type;
  register_loop inv s convert_fun type_key opposite_type_key item_type items.

(* ------------------------------------------------------------------ *)
(** ** [TaskWarriorSide.__init__] and the script's [main] *)

(** [self.config = {'tags': ''}], updated with the keyword arguments; a
    non-string [tags] logs a fatal message and raises [RuntimeError]. *)
Definition tw_side_init (kargs : item) : result unit :=
  let config := kargs ∪ {[ "tags" := VStr EmptyString ]} in
  match config !! "tags" with
  | Some (VStr _) => Ok tt
  | _ => Err RuntimeError
  end.

(** What [main] has reached: the construction steps of
    [TWGCalAggregator.__init__] and the phases of the pass. *)
Inductive phase :=
| PPrefs | PTWSideInit | PGCalSideInit | PStart
| PFetch (s : side) | PRegister (s : side) | PSyncDeleted (s : side).

Definition sync_pass : list phase :=
  [PStart; PFetch TWSide; PRegister TWSide; PFetch GCalSideS; PRegister GCalSideS;
   PSyncDeleted TWSide; PSyncDeleted GCalSideS].

(** [main(gcal_calendar, tw_tags, ...)]: outcome and the phases entered.
    The pass after construction is recorded as its phase sequence; its
    steps are the functions above. *)
Definition main (tw_tags : list string) : result unit * list phase :=
  if bool_decide (length tw_tags ≠ 1) then (Err RuntimeError, [])
  else
    (* tw_config = {"tags": list(tw_tags)} *)
    let tw_config : item := {[ "tags" := VList tw_tags ]} in
    (* TWGCalAggregator.__init__: PrefsManager, then TaskWarriorSide(tw_config) *)
    match tw_side_init tw_config with
    | Err e => (Err e, [PPrefs])
    | Ok _ => (Ok tt, [PPrefs; PTWSideInit; PGCalSideInit] ++ sync_pass)%list
    end.


(* ------------------------------------------------------------------ *)
(** ** [TWGCalAggregator.compare_tw_gcal_items] *)

(** [diff_keys = set(tw_item) ^ set(tw_item_out)] and
    [changes = {k: (tw_item[k], tw_item_out[k]) for k in set(tw_item) &
    set(tw_item_out) if tw_item[k] != tw_item_out[k]}]. *)
Definition compare_tw_gcal_items (tw_item gcal_item : item)
  : M (gset string * gmap string (value * value)) :=
  tw_item_out ← convert_gcal_to_tw gcal_item;
  let diff_keys := (dom tw_item ∖ dom tw_item_out) ∪ (dom tw_item_out ∖ dom tw_item) in
  let changes := filter (fun kv : string * (value * value) => kv.2.1 ≠ kv.2.2)
                        (map_zip tw_item tw_item_out) in
  ret (diff_keys, changes).

(* ------------------------------------------------------------------ *)
(** ** [TWGCalAggregator.__init__] *)



(* ------------------------------------------------------------------ *)
(** ** Predicates used by the statements below *)

(** [m] relates the world before and after it by [R], whatever it returns. *)
Definition preserves (R : world -> world -> Prop) {A} (m : M A) : Prop :=
  forall w, R w (snd (m w)).

(** Only the log changes. *)
Definition same_tc (w w' : world) : Prop :=
  w_table w' = w_table w /\ w_calls w' = w_calls w.

(** The calls made are the earlier ones followed by calls into the
    calendar store only. *)
Definition calls_gcal_only (w w' : world) : Prop :=
  exists new, w_calls w' = (w_calls w ++ new)%list /\ Forall (fun c => c.1 = GCalSideS) new.

(** The table is left alone. *)
Definition tbl_same (w w' : world) : Prop := w_table w' = w_table w.

(** The normalised lines of a description's annotation part, as
    [_parse_gcal_item_desc] sees them. *)
Definition ann_region (anns : string) : list string :=
  map PyStr.strip (filter (fun l => l ≠ EmptyString) (PyStr.split nl anns)).

(** An annotation text the description keeps as it is: one line, no
    surrounding whitespace. *)
Definition ann_ok (a : string) : Prop :=
  PyStr.has_char nl a = false /\ PyStr.lstrip a = a /\ PyStr.rstrip a = a.

(** What [for x in v] iterates over without raising. *)
Definition py_iterable (v : value) : Prop :=
  match v with VList _ | VStr _ | VDict _ => True | _ => False end.

(* ================================================================== *)
(** * Proofs *)

(** ** Framing: what a method can change in the world *)

Lemma preserves_ret R `{!Reflexive R} {A} (a : A) : preserves R (ret a).
Proof. intros w. simpl. reflexivity. Qed.

Lemma preserves_mret R `{!Reflexive R} {A} (a : A) : preserves R (mret a).
Proof. apply preserves_ret; done. Qed.

Lemma preserves_raise R `{!Reflexive R} {A} (e : exn) : preserves R (@raise A e).
Proof. intros w. simpl. reflexivity. Qed.

Lemma preserves_bind R `{!Transitive R} {A B} (m : M A) (f : A -> M B) :
  preserves R m -> (forall a, preserves R (f a)) -> preserves R (mbind f m).
Proof.
  intros Hm Hf w. unfold mbind, M_bind, bind.
  specialize (Hm w). destruct (m w) as [[a|e] w'] eqn:E; simpl in *.
  - etrans; [exact Hm|apply Hf].
  - exact Hm.
Qed.


#[local] Instance same_tc_refl : Reflexive same_tc.
Proof. intros w. split; reflexivity. Qed.
#[local] Instance same_tc_trans : Transitive same_tc.
Proof. intros x y z [H1 H2] [H3 H4]. split; congruence. Qed.

Lemma preserves_emit l : preserves same_tc (emit l).
Proof. intros w. split; reflexivity. Qed.

Lemma preserves_py_assert R `{!Reflexive R} b : preserves R (py_assert b).
Proof. unfold py_assert. destruct b; [apply preserves_ret|apply preserves_raise]; done. Qed.

Lemma preserves_getitem R `{!Reflexive R} d k : preserves R (getitem d k).
Proof. unfold getitem. destruct (d !! k); [apply preserves_ret|apply preserves_raise]; done. Qed.

Lemma preserves_getitem_assoc R `{!Reflexive R} d k : preserves R (getitem_assoc d k).
Proof.
  unfold getitem_assoc. destruct (list_find _ d) as [[? ?]|];
    [apply preserves_ret|apply preserves_raise]; done.
Qed.

Lemma preserves_as_dict R `{!Reflexive R} v : preserves R (as_dict v).
Proof. destruct v; simpl; first [apply preserves_ret|apply preserves_raise]; done. Qed.

Lemma preserves_as_datetime R `{!Reflexive R} v : preserves R (as_datetime v).
Proof. destruct v; simpl; first [apply preserves_ret|apply preserves_raise]; done. Qed.

Lemma preserves_py_iter R `{!Reflexive R} v : preserves R (py_iter v).
Proof. destruct v; simpl; first [apply preserves_ret|apply preserves_raise]; done. Qed.

Create HintDb frame.
#[local] Hint Resolve preserves_ret preserves_mret preserves_raise preserves_emit
  preserves_py_assert preserves_getitem preserves_getitem_assoc preserves_as_dict
  preserves_as_datetime preserves_py_iter : frame.

Ltac frame :=
  repeat first
    [ apply preserves_bind; [typeclasses eauto| |intros ?]
    | progress (eauto with frame typeclass_instances)
    | match goal with
      | |- preserves _ (match ?x with _ => _ end) => destruct x
      | |- preserves _ (if ?b then _ else _) => destruct b
      end ].

Lemma scan_lines_same_tc ls st u : preserves same_tc (scan_lines ls st u).
Proof.
  revert st u. induction ls as [|l ls IH]; intros st u; simpl; [frame|].
  destruct (PyStr.split1 colon l) as [|p0 [|p1 [|]]]; auto.
  destruct (PyStr.startswith _ "* status"); auto.
  destruct (PyStr.startswith _ "* uuid"); auto.
  destruct (uuid_parse _); auto. frame.
Qed.
#[local] Hint Resolve scan_lines_same_tc : frame.

Lemma parse_gcal_item_desc_same_tc g : preserves same_tc (parse_gcal_item_desc g).
Proof.
  unfold parse_gcal_item_desc. destruct (g !! "description") as [[]|]; frame.
Qed.
#[local] Hint Resolve parse_gcal_item_desc_same_tc : frame.

Lemma convert_gcal_to_tw_same_tc g : preserves same_tc (convert_gcal_to_tw g).
Proof. unfold convert_gcal_to_tw. frame. Qed.

Lemma convert_tw_to_gcal_same_tc t : preserves same_tc (convert_tw_to_gcal t).
Proof. unfold convert_tw_to_gcal. frame. Qed.


Lemma preserves_weaken (R1 R2 : world -> world -> Prop) {A} (m : M A) :
  (forall w w', R1 w w' -> R2 w w') -> preserves R1 m -> preserves R2 m.
Proof. intros H Hm w. apply H, Hm. Qed.

(** ** Calls into the external stores *)


#[local] Instance calls_gcal_only_refl : Reflexive calls_gcal_only.
Proof. intros w. exists []. rewrite app_nil_r. done. Qed.
#[local] Instance calls_gcal_only_trans : Transitive calls_gcal_only.
Proof.
  intros x y z [n1 [H1 F1]] [n2 [H2 F2]]. exists (n1 ++ n2)%list.
  rewrite H2, H1, app_assoc. split; [done|]. apply Forall_app; done.
Qed.

Lemma same_tc_calls_gcal_only w w' : same_tc w w' -> calls_gcal_only w w'.
Proof. intros [_ H]. exists []. rewrite app_nil_r. done. Qed.

Lemma frame_convert_calls (conv : item -> M item) it :
  (conv = convert_tw_to_gcal \/ conv = convert_gcal_to_tw) ->
  preserves calls_gcal_only (conv it).
Proof.
  intros [->| ->]; eapply preserves_weaken; try apply same_tc_calls_gcal_only;
    [apply convert_tw_to_gcal_same_tc|apply convert_gcal_to_tw_same_tc].
Qed.

Lemma gcal_add_calls it : preserves calls_gcal_only (side_add_item GCalSideS it).
Proof. intros w. exists [(GCalSideS, it)]. simpl. split; [done|]. repeat constructor. Qed.

Lemma get_table_frame R `{!Reflexive R} : preserves R get_table.
Proof. intros w. simpl. reflexivity. Qed.

Lemma set_registered_calls inv k v : preserves calls_gcal_only (set_registered inv k v).
Proof.
  intros w. unfold set_registered.
  destruct (if inv then _ else _); simpl; [|reflexivity].
  exists []. rewrite app_nil_r. done.
Qed.

Lemma emit_calls l : preserves calls_gcal_only (emit l).
Proof. eapply preserves_weaken; [apply same_tc_calls_gcal_only|apply preserves_emit]. Qed.

#[local] Hint Resolve emit_calls get_table_frame gcal_add_calls set_registered_calls : frame.

Lemma register_loop_calls inv conv tk otk ty items :
  (conv = convert_tw_to_gcal \/ conv = convert_gcal_to_tw) ->
  preserves calls_gcal_only (register_loop inv GCalSideS conv tk otk ty items).
Proof.
  intros Hc. induction items as [|it rest IH]; simpl; [frame|].
  apply preserves_bind; [typeclasses eauto|frame|intros v].
  apply preserves_bind; [typeclasses eauto|frame|intros t].
  destruct (bool_decide _); [exact IH|].
  apply preserves_bind; [typeclasses eauto| |intros _; exact IH].
  unfold register_new.
  apply preserves_bind; [typeclasses eauto|frame|intros _].
  apply preserves_bind; [typeclasses eauto|apply frame_convert_calls, Hc|intros c].
  frame.
Qed.

(* ------------------------------------------------------------------ *)
(** ** Claims about the sides and [main] *)

(** C1 (code_bug).  [register_items items "gcal"] adds its converted items
    through the calendar side: every call it makes into a store is a call
    into the calendar store, none into the task store, although a calendar
    event should be mirrored as a task. *)
Theorem register_items_gcal_adds_to_gcal (items : list item) (w : world) :
  calls_gcal_only w (snd (register_items items "gcal" w)).
Proof.
  revert w. unfold register_items. frame.
  apply register_loop_calls. simpl. right. reflexivity.
Qed.

(** C9.  [TaskWarriorSide.add_item] on an item with a [description] key
    but no [desscription] key raises [KeyError('desscription')] before any
    call into the task store: the world is unchanged. *)
Theorem tw_side_add_item_keyerror (it : item) (w : world) :
  is_Some (it !! "description") -> it !! "desscription" = None ->
  tw_side_add_item it w = (Err (KeyError "desscription"), w).
Proof.
  intros Hd Hdd. unfold tw_side_add_item, py_assert.
  rewrite (bool_decide_eq_true_2 _ Hd).
  unfold mbind, M_bind, bind, getitem. rewrite Hdd. reflexivity.
Qed.

(** C10 (code_bug).  [main] raises [RuntimeError] for every tag list: with
    a tag count other than one before anything is built, and with exactly
    one tag while [TaskWarriorSide] is built from [{"tags": [tag]}], which
    it rejects as not a string; no fetch or registration is ever reached. *)
Theorem main_always_raises (tw_tags : list string) :
  main tw_tags =
  (Err RuntimeError, if bool_decide (length tw_tags = 1) then [PPrefs] else []).
Proof.
  unfold main. destruct tw_tags as [|t [|t2 l]]; try reflexivity.
Qed.


(** ** The correspondence table *)

Lemma tbl_get_None (t : table) k : tbl_get t k = None <-> k ∉ fst <$> t.
Proof.
  unfold tbl_get. destruct (list_find _ t) as [[i kv]|] eqn:E.
  - apply list_find_Some in E as (Hl & Hk & _). split; [discriminate|].
    intros Hn. exfalso. apply Hn. apply list_elem_of_fmap.
    exists kv. split; [done|]. eapply list_elem_of_lookup_2; eauto.
  - apply list_find_None in E. split; [intros _|done].
    intros Hin. apply list_elem_of_fmap in Hin as [kv [-> Hkv]].
    rewrite Forall_forall in E. exact (E kv Hkv eq_refl).
Qed.

Lemma tbl_inv_get_None (t : table) v : tbl_inv_get t v = None <-> v ∉ snd <$> t.
Proof.
  unfold tbl_inv_get. destruct (list_find _ t) as [[i kv]|] eqn:E.
  - apply list_find_Some in E as (Hl & Hk & _). split; [discriminate|].
    intros Hn. exfalso. apply Hn. apply list_elem_of_fmap.
    exists kv. split; [done|]. eapply list_elem_of_lookup_2; eauto.
  - apply list_find_None in E. split; [intros _|done].
    intros Hin. apply list_elem_of_fmap in Hin as [kv [-> Hkv]].
    rewrite Forall_forall in E. exact (E kv Hkv eq_refl).
Qed.

Lemma swap_fst (t : table) : fst <$> swap_tbl t = snd <$> t.
Proof. unfold swap_tbl. rewrite <- list_fmap_compose. done. Qed.
Lemma swap_snd (t : table) : snd <$> swap_tbl t = fst <$> t.
Proof. unfold swap_tbl. rewrite <- list_fmap_compose. done. Qed.
Lemma swap_swap (t : table) : swap_tbl (swap_tbl t) = t.
Proof.
  unfold swap_tbl. rewrite <- list_fmap_compose.
  induction t as [|[a b] t IH]; simpl; [done|]. f_equal. exact IH.
Qed.
Lemma swap_app (t1 t2 : table) : swap_tbl (t1 ++ t2) = (swap_tbl t1 ++ swap_tbl t2)%list.
Proof. unfold swap_tbl. apply fmap_app. Qed.

(** [registered_ids[k] = v] for an id [k] not yet registered: it raises
    [ValueDuplicationError] when [v] is already bound, and otherwise
    appends the item. *)
Lemma setitem_fresh inv (t : table) k v :
  k ∉ view_keys inv t ->
  (if inv then bidict_inv_setitem else bidict_setitem) t k v =
  if bool_decide (v ∈ view_vals inv t) then Err ValueDuplicationError
  else Ok (t ++ [view_item inv k v])%list.
Proof.
  intros Hk. destruct inv; unfold view_keys, view_vals, view_item in *.
  - unfold bidict_inv_setitem, bidict_setitem.
    rewrite <- swap_fst in Hk. apply tbl_get_None in Hk. rewrite Hk.
    destruct (bool_decide_reflect (v ∈ fst <$> t)) as [Hv|Hv].
    + rewrite <- swap_snd in Hv. destruct (tbl_inv_get (swap_tbl t) v) eqn:E; [done|].
      apply tbl_inv_get_None in E. contradiction.
    + rewrite <- swap_snd in Hv. apply tbl_inv_get_None in Hv. rewrite Hv.
      rewrite swap_app, swap_swap. done.
  - unfold bidict_setitem. apply tbl_get_None in Hk. rewrite Hk.
    destruct (bool_decide_reflect (v ∈ snd <$> t)) as [Hv|Hv].
    + destruct (tbl_inv_get t v) eqn:E; [done|].
      apply tbl_inv_get_None in E. contradiction.
    + apply tbl_inv_get_None in Hv. rewrite Hv. done.
Qed.

Lemma bij_append inv (t : table) k v :
  bij t -> k ∉ view_keys inv t -> v ∉ view_vals inv t ->
  bij (t ++ [view_item inv k v])%list.
Proof.
  intros [H1 H2] Hk Hv. unfold bij, view_keys, view_vals, view_item in *.
  rewrite !fmap_app. destruct inv; simpl; split; apply NoDup_app;
    (split; [done|split; [|apply NoDup_singleton]]);
    intros x Hx Hx'; apply list_elem_of_singleton in Hx'; subst; contradiction.
Qed.

Lemma view_keys_append inv (t : table) k v :
  view_keys inv (t ++ [view_item inv k v])%list = (view_keys inv t ++ [k])%list.
Proof. unfold view_keys, view_item. destruct inv; rewrite fmap_app; reflexivity. Qed.

Lemma view_keys_app_incl inv (t new : table) x :
  x ∈ view_keys inv t -> x ∈ view_keys inv (t ++ new)%list.
Proof.
  unfold view_keys. destruct inv; rewrite fmap_app; intros; apply elem_of_app; left; done.
Qed.


(** ** Registration *)

Lemma bind_w {A B} (m : M A) (f : A -> M B) w :
  mbind f m w = match m w with (Ok a, w') => f a w' | (Err e, w') => (Err e, w') end.
Proof. reflexivity. Qed.


#[local] Instance tbl_same_refl : Reflexive tbl_same.
Proof. intros w. reflexivity. Qed.
#[local] Instance tbl_same_trans : Transitive tbl_same.
Proof. intros x y z H1 H2. unfold tbl_same in *. congruence. Qed.

Lemma preserves_py_len R `{!Reflexive R} v : preserves R (py_len v).
Proof. destruct v; simpl; first [apply preserves_ret|apply preserves_raise]; done. Qed.
Lemma preserves_py_slice_str R `{!Reflexive R} v n : preserves R (py_slice_str v n).
Proof. destruct v; simpl; first [apply preserves_ret|apply preserves_raise]; done. Qed.
Lemma emit_tbl l : preserves tbl_same (emit l).
Proof. intros w. reflexivity. Qed.
Lemma call_store_tbl s a r : preserves tbl_same (call_store s a r).
Proof. intros w. reflexivity. Qed.
#[local] Hint Resolve preserves_py_len preserves_py_slice_str emit_tbl call_store_tbl : frame.

Lemma side_add_item_tbl s it : preserves tbl_same (side_add_item s it).
Proof. destruct s; simpl; [unfold tw_side_add_item|]; frame. Qed.

Lemma conv_same_tc (conv : item -> M item) it w :
  (conv = convert_tw_to_gcal \/ conv = convert_gcal_to_tw) ->
  same_tc w (snd (conv it w)).
Proof.
  intros [->| ->]; [apply convert_tw_to_gcal_same_tc|apply convert_gcal_to_tw_same_tc].
Qed.

(** One new registration: it either fails, leaving the table as it was, or
    appends one item whose other column is fresh. *)
Lemma register_new_outcome inv s conv otk ty it v w :
  (conv = convert_tw_to_gcal \/ conv = convert_gcal_to_tw) ->
  VStr (py_str v) ∉ view_keys inv (w_table w) ->
  match register_new inv s conv otk ty it v w with
  | (Ok _, w') => (exists nid, (nid ∉ view_vals inv (w_table w)) /\
      w_table w' = (w_table w ++ [view_item inv (VStr (py_str v)) nid])%list)
  | (Err _, w') => w_table w' = w_table w
  end.
Proof.
  intros Hc Hk. unfold register_new. rewrite bind_w.
  destruct (emit _ w) as [r1 w1] eqn:E1. unfold emit in E1. injection E1 as <- E1.
  assert (T1 : w_table w1 = w_table w) by (rewrite <- E1; reflexivity). clear E1.
  rewrite bind_w. pose proof (conv_same_tc conv it w1 Hc) as [T2 _].
  destruct (conv it w1) as [[c|e] w2]; simpl in T2; [|congruence].
  rewrite bind_w. pose proof (side_add_item_tbl s c w2) as T3. unfold tbl_same in T3.
  destruct (side_add_item s c w2) as [[r|e] w3]; simpl in T3; [|congruence].
  rewrite bind_w. unfold getitem.
  destruct (r !! otk) as [nid|]; simpl; [|congruence].
  unfold set_registered. rewrite T3, T2, T1, (setitem_fresh inv _ _ nid Hk).
  destruct (bool_decide_reflect (nid ∈ view_vals inv (w_table w))) as [Hv|Hv];
    simpl; [congruence|].
  exists nid. split; [done|]. reflexivity.
Qed.

Lemma register_loop_bij inv s conv tk otk ty items w :
  (conv = convert_tw_to_gcal \/ conv = convert_gcal_to_tw) ->
  bij (w_table w) ->
  let w' := snd (register_loop inv s conv tk otk ty items w) in
  bij (w_table w') /\ exists new, w_table w' = (w_table w ++ new)%list.
Proof.
  intros Hc. revert w. induction items as [|it rest IH]; intros w Hb; simpl.
  { split; [done|]. exists []. rewrite app_nil_r. done. }
  rewrite bind_w. unfold getitem. destruct (it !! tk) as [v|]; simpl.
  2:{ split; [done|]. exists []. rewrite app_nil_r. done. }
  rewrite bind_w. simpl.
  destruct (bool_decide_reflect (VStr (py_str v) ∈ view_keys inv (w_table w))) as [Hin|Hin].
  - apply IH. exact Hb.
  - rewrite bind_w. pose proof (register_new_outcome inv s conv otk ty it v w Hc Hin) as Ho.
    destruct (register_new inv s conv otk ty it v w) as [[u|e] w1]; simpl.
    + destruct Ho as [nid [Hv Ht]].
      assert (Hb1 : bij (w_table w1)) by (rewrite Ht; apply bij_append; done).
      destruct (IH w1 Hb1) as [Hb' [new Hnew]]. split; [exact Hb'|].
      exists ([view_item inv (VStr (py_str v)) nid] ++ new)%list.
      rewrite Hnew, Ht, app_assoc. done.
    + split; [rewrite Ho; done|]. exists []. rewrite app_nil_r. done.
Qed.


Lemma register_items_tw items w :
  register_items items "tw" w =
  register_loop false GCalSideS convert_tw_to_gcal "uuid" "htmlLink" "tw" items w.
Proof. reflexivity. Qed.

Lemma register_items_gcal items w :
  register_items items "gcal" w =
  register_loop true GCalSideS convert_gcal_to_tw "htmlLink" "uuid" "gcal" items w.
Proof. reflexivity. Qed.

Lemma register_items_other items ty w :
  ty ≠ "tw" -> ty ≠ "gcal" -> register_items items ty w = (Err AssertionError, w).
Proof.
  intros H1 H2. unfold register_items, py_assert.
  rewrite (bool_decide_eq_false_2 (ty ∈ ["tw"; "gcal"])); [reflexivity|].
  intros Hin. apply list_elem_of_In in Hin. simpl in Hin.
  destruct Hin as [H|[H|[]]]; symmetry in H; contradiction.
Qed.

Lemma register_loop_app inv s conv tk otk ty (l1 l2 : list item) w :
  register_loop inv s conv tk otk ty (l1 ++ l2) w =
  match register_loop inv s conv tk otk ty l1 w with
  | (Ok _, w1) => register_loop inv s conv tk otk ty l2 w1
  | (Err e, w1) => (Err e, w1)
  end.
Proof.
  revert w. induction l1 as [|it l1 IH]; intros w; [reflexivity|].
  simpl. rewrite !bind_w. unfold getitem. destruct (it !! tk) as [v|]; [|reflexivity].
  simpl. rewrite !bind_w. simpl.
  destruct (bool_decide _); [apply IH|].
  rewrite !bind_w. destruct (register_new _ _ _ _ _ _ _ w) as [[u|e] w1]; [apply IH|reflexivity].
Qed.

(** C5.  Registration keeps the correspondence table a bijection: from a
    bijective table, [register_items] (whether it succeeds or raises) leaves
    a bijective table that only extends the old one, so no existing entry is
    ever overwritten (an id already present as a key is skipped, never
    re-inserted); and binding an unregistered id to an id that is already
    bound on the other side raises [ValueDuplicationError]. *)
Theorem register_items_bijection (items : list item) (ty : string) (w : world) :
  bij (w_table w) ->
  let w' := snd (register_items items ty w) in
  (bij (w_table w') /\ exists new, w_table w' = (w_table w ++ new)%list) /\
  (forall inv (t : table) k v, k ∉ view_keys inv t -> v ∈ view_vals inv t ->
     (if inv then bidict_inv_setitem else bidict_setitem) t k v = Err ValueDuplicationError).
Proof.
  intros Hb. split.
  - destruct (decide (ty = "tw")) as [->|Htw].
    { rewrite register_items_tw. apply register_loop_bij; [left; done|exact Hb]. }
    destruct (decide (ty = "gcal")) as [->|Hg].
    { rewrite register_items_gcal. apply register_loop_bij; [right; done|exact Hb]. }
    rewrite register_items_other by done. simpl.
    split; [exact Hb|]. exists []. rewrite app_nil_r. done.
  - intros inv t k v Hk Hv. rewrite setitem_fresh by exact Hk.
    rewrite bool_decide_eq_true_2 by exact Hv. reflexivity.
Qed.

Lemma register_loop_ok_keys inv s conv tk otk ty items w w' :
  (conv = convert_tw_to_gcal \/ conv = convert_gcal_to_tw) ->
  register_loop inv s conv tk otk ty items w = (Ok tt, w') ->
  (forall it, it ∈ items -> exists v, it !! tk = Some v /\
       VStr (py_str v) ∈ view_keys inv (w_table w')) /\
  exists new, w_table w' = (w_table w ++ new)%list.
Proof.
  intros Hc. revert w. induction items as [|it rest IH]; intros w Hrun; simpl in Hrun.
  { injection Hrun as <-. split; [intros it Hit; inversion Hit|].
    exists []. rewrite app_nil_r. done. }
  rewrite bind_w in Hrun. unfold getitem in Hrun.
  destruct (it !! tk) as [v|] eqn:Ev; simpl in Hrun; [|discriminate].
  rewrite bind_w in Hrun. simpl in Hrun.
  destruct (bool_decide_reflect (VStr (py_str v) ∈ view_keys inv (w_table w))) as [Hin|Hin].
  - destruct (IH w Hrun) as [Hall [new Hnew]]. split; [|exists new; exact Hnew].
    intros it' Hit'. apply elem_of_cons in Hit' as [->|Hit']; [|apply Hall, Hit'].
    exists v. split; [exact Ev|]. rewrite Hnew. apply view_keys_app_incl, Hin.
  - rewrite bind_w in Hrun. pose proof (register_new_outcome inv s conv otk ty it v w Hc Hin) as Ho.
    destruct (register_new inv s conv otk ty it v w) as [[u|e] w1]; [|discriminate].
    destruct Ho as [nid [_ Ht]].
    destruct (IH w1 Hrun) as [Hall [new Hnew]]. split.
    + intros it' Hit'. apply elem_of_cons in Hit' as [->|Hit']; [|apply Hall, Hit'].
      exists v. split; [exact Ev|]. rewrite Hnew. apply view_keys_app_incl.
      rewrite Ht, view_keys_append. apply elem_of_app. right. apply list_elem_of_singleton. done.
    + exists ([view_item inv (VStr (py_str v)) nid] ++ new)%list.
      rewrite Hnew, Ht, app_assoc. done.
Qed.

Lemma register_loop_skip inv s conv tk otk ty items w :
  (forall it, it ∈ items -> exists v, it !! tk = Some v /\
       VStr (py_str v) ∈ view_keys inv (w_table w)) ->
  register_loop inv s conv tk otk ty items w = (Ok tt, w).
Proof.
  induction items as [|it rest IH]; intros Hall; [reflexivity|]. simpl.
  destruct (Hall it) as [v [Ev Hin]]; [apply elem_of_cons; left; done|].
  rewrite bind_w. unfold getitem. rewrite Ev. simpl. rewrite bind_w. simpl.
  rewrite bool_decide_eq_true_2 by exact Hin. apply IH.
  intros it' Hit'. apply Hall. apply elem_of_cons. right. exact Hit'.
Qed.

(** C6.  Registration is idempotent: after a run of [register_items] that
    completes, a second run on the same items and the resulting table finds
    every id registered, makes no call into a store and changes nothing. *)
Theorem register_items_idempotent (items : list item) (ty : string) (w w' : world) :
  register_items items ty w = (Ok tt, w') ->
  register_items items ty w' = (Ok tt, w').
Proof.
  intros Hrun. destruct (decide (ty = "tw")) as [->|Htw].
  { rewrite register_items_tw in *.
    apply register_loop_ok_keys in Hrun as [Hall _]; [|left; done].
    apply register_loop_skip, Hall. }
  destruct (decide (ty = "gcal")) as [->|Hg].
  { rewrite register_items_gcal in *.
    apply register_loop_ok_keys in Hrun as [Hall _]; [|right; done].
    apply register_loop_skip, Hall. }
  rewrite register_items_other in Hrun by done. discriminate.
Qed.

Lemma register_loop_add_failure inv conv tk otk ty (pre post : list item) x w w1 v e :
  (conv = convert_tw_to_gcal \/ conv = convert_gcal_to_tw) ->
  register_loop inv GCalSideS conv tk otk ty pre w = (Ok tt, w1) ->
  x !! tk = Some v ->
  VStr (py_str v) ∉ view_keys inv (w_table w1) ->
  (forall c, gcal_add_item c (w_calls w1) = Err e) ->
  exists e' w2,
    register_loop inv GCalSideS conv tk otk ty (pre ++ x :: post) w = (Err e', w2) /\
    w_table w2 = w_table w1 /\
    (e' = e \/ exists w0, fst (conv x w0) = Err e').
Proof.
  intros Hc Hpre Ex Hk Hfail.
  rewrite register_loop_app, Hpre. simpl.
  rewrite bind_w. unfold getitem. rewrite Ex. simpl. rewrite bind_w. simpl.
  rewrite bool_decide_eq_false_2 by exact Hk.
  rewrite bind_w. unfold register_new. rewrite !bind_w.
  destruct (emit _ w1) as [r1 w1'] eqn:E1. unfold emit in E1. injection E1 as <- E1.
  assert (T1 : w_table w1' = w_table w1 /\ w_calls w1' = w_calls w1)
    by (rewrite <- E1; split; reflexivity). clear E1. simpl. rewrite bind_w.
  pose proof (conv_same_tc conv x w1' Hc) as T2.
  destruct (conv x w1') as [[c|e'] w2] eqn:Ec; simpl in T2; destruct T1, T2.
  - rewrite bind_w. unfold side_add_item, call_store. simpl.
    replace (w_calls w2) with (w_calls w1) by congruence. rewrite Hfail.
    exists e, (mkWorld (w_table w2) (w_calls w1 ++ [(GCalSideS, c)])%list (w_logs w2)).
    split; [reflexivity|]. split; [simpl; congruence|]. left; reflexivity.
  - exists e', w2. split; [reflexivity|]. split; [congruence|].
    right. exists w1'. rewrite Ec. reflexivity.
Qed.

(** C8.  A failing add leaves the table unchanged for that item: when the
    items before [x] have been registered (reaching [w1]), [x]'s id is not
    registered, and the store's add raises [e], the run raises (with [e], or
    with the conversion's own error if converting [x] raised first) and the
    table is exactly the one before [x]: no entry is recorded for [x]. *)
Theorem register_items_add_failure (ty : string) (pre post : list item) (x : item)
    (w w1 : world) (v : value) (e : exn) :
  register_items pre ty w = (Ok tt, w1) ->
  x !! (if bool_decide (ty = "tw") then "uuid" else "htmlLink") = Some v ->
  VStr (py_str v) ∉ view_keys (negb (bool_decide (ty = "tw"))) (w_table w1) ->
  (forall c, gcal_add_item c (w_calls w1) = Err e) ->
  exists e' w2, register_items (pre ++ x :: post) ty w = (Err e', w2) /\
    w_table w2 = w_table w1 /\
    (e' = e \/ exists w0,
       fst ((if bool_decide (ty = "tw") then convert_tw_to_gcal else convert_gcal_to_tw) x w0)
       = Err e').
Proof.
  intros Hpre Ex Hk Hfail. destruct (decide (ty = "tw")) as [->|Htw].
  { rewrite (bool_decide_eq_true_2 ("tw" = "tw")) in * by done.
    rewrite register_items_tw in *. eapply register_loop_add_failure; eauto. }
  rewrite (bool_decide_eq_false_2 (ty = "tw")) in * by exact Htw.
  destruct (decide (ty = "gcal")) as [->|Hg].
  { rewrite register_items_gcal in *. eapply register_loop_add_failure; eauto. }
  rewrite register_items_other in Hpre by done. discriminate.
Qed.


(** ** String facts *)

#[local] Arguments String.append : simpl nomatch.

Lemma str_app_nil s : (s ++ EmptyString)%string = s.
Proof. induction s as [|a s IH]; simpl; [done|]. rewrite IH. done. Qed.

Lemma str_app_assoc x y z : ((x ++ y) ++ z)%string = (x ++ (y ++ z))%string.
Proof. induction x as [|a x IH]; simpl; [done|]. rewrite IH. done. Qed.

Lemma rev_app x y : PyStr.rev (x ++ y) = (PyStr.rev y ++ PyStr.rev x)%string.
Proof.
  induction x as [|a x IH].
  - symmetry. apply str_app_nil.
  - simpl. rewrite IH, str_app_assoc. done.
Qed.

Lemma rev_rev s : PyStr.rev (PyStr.rev s) = s.
Proof. induction s as [|a s IH]; simpl; [done|]. rewrite rev_app, IH. done. Qed.

Lemma rev_empty s : PyStr.rev s = EmptyString -> s = EmptyString.
Proof. intros H. rewrite <- (rev_rev s), H. done. Qed.

Lemma lstrip_app_ne u z :
  PyStr.lstrip u <> EmptyString -> PyStr.lstrip (u ++ z) = (PyStr.lstrip u ++ z)%string.
Proof.
  induction u as [|a u IH]; simpl; [done|].
  destruct (PyStr.is_space a); [exact IH|done].
Qed.

Lemma lstrip_app_empty u z :
  PyStr.lstrip u = EmptyString -> PyStr.lstrip (u ++ z) = PyStr.lstrip z.
Proof.
  induction u as [|a u IH]; simpl; [done|].
  destruct (PyStr.is_space a); [exact IH|discriminate].
Qed.

Lemma rstrip_app_ne x y :
  PyStr.rstrip y <> EmptyString -> PyStr.rstrip (x ++ y) = (x ++ PyStr.rstrip y)%string.
Proof.
  unfold PyStr.rstrip. intros H. rewrite rev_app, lstrip_app_ne, rev_app, rev_rev; [done|].
  intros E. apply H. rewrite E. done.
Qed.

Lemma rstrip_app_empty x y :
  PyStr.rstrip y = EmptyString -> PyStr.rstrip (x ++ y) = PyStr.rstrip x.
Proof.
  unfold PyStr.rstrip. intros H. apply rev_empty in H.
  rewrite rev_app, lstrip_app_empty by exact H. done.
Qed.

Lemma has_char_app c x y :
  PyStr.has_char c (x ++ y) = PyStr.has_char c x || PyStr.has_char c y.
Proof. induction x as [|a x IH]; simpl; [done|]. rewrite IH, orb_assoc. done. Qed.

Lemma split_nochar c s : PyStr.has_char c s = false -> PyStr.split c s = [s].
Proof.
  induction s as [|a s IH]; simpl; [done|]. intros H. apply orb_false_iff in H as [H1 H2].
  rewrite H1, IH by exact H2. done.
Qed.

Lemma split_cons c s : exists h t, PyStr.split c s = h :: t.
Proof.
  induction s as [|a s [h [t IH]]]; simpl; [eauto|].
  destruct (bool_decide (a = c)); [eauto|]. rewrite IH. eauto.
Qed.

Lemma split_app_sep c x y :
  PyStr.split c (x ++ String c y) = (PyStr.split c x ++ PyStr.split c y)%list.
Proof.
  induction x as [|a x IH]; simpl.
  - rewrite bool_decide_eq_true_2 by done. done.
  - rewrite IH. destruct (bool_decide (a = c)); [done|].
    destruct (split_cons c x) as [h [t E]]. rewrite E. done.
Qed.

Lemma break_at_app c x y :
  PyStr.has_char c x = false -> PyStr.break_at c (x ++ String c y) = Some (x, y).
Proof.
  induction x as [|a x IH]; simpl; intros H.
  - rewrite bool_decide_eq_true_2 by done. done.
  - apply orb_false_iff in H as [H1 H2]. rewrite H1, IH by exact H2. done.
Qed.

Lemma lower_app x y : PyStr.lower (x ++ y) = (PyStr.lower x ++ PyStr.lower y)%string.
Proof. induction x as [|a x IH]; simpl; [done|]. rewrite IH. done. Qed.

Lemma startswith_app p s : PyStr.startswith (p ++ s) p = true.
Proof.
  induction p as [|a p IH]; simpl; [destruct s; done|].
  rewrite bool_decide_eq_true_2 by done. exact IH.
Qed.

Lemma digit_not_colon d : pretty_N_char d <> colon.
Proof. destruct d as [|p]; [discriminate|]. repeat (destruct p as [p|p|]; try discriminate). Qed.

Lemma digit_not_nl d : pretty_N_char d <> nl.
Proof. destruct d as [|p]; [discriminate|]. repeat (destruct p as [p|p|]; try discriminate). Qed.

Lemma pretty_N_go_no c x s :
  (forall d, pretty_N_char d <> c) ->
  PyStr.has_char c s = false -> PyStr.has_char c (pretty_N_go x s) = false.
Proof.
  intros Hc. revert s. induction (N.lt_wf_0 x) as [x _ IH]; intros s Hs.
  destruct (decide (0 < x)%N) as [Hx|Hx].
  - rewrite pretty_N_go_step by exact Hx. apply IH; [apply N.div_lt; [exact Hx|lia]|].
    simpl. rewrite Hs, orb_false_r. apply bool_decide_eq_false_2, Hc.
  - replace x with 0%N by lia. rewrite pretty_N_go_0. exact Hs.
Qed.

Lemma pretty_nat_no c (n : nat) :
  (forall d, pretty_N_char d <> c) -> PyStr.has_char c (pretty n) = false.
Proof.
  intros Hc. change (pretty n) with (pretty_N (N.of_nat n)). unfold pretty_N.
  case_decide.
  - simpl. rewrite orb_false_r. apply bool_decide_eq_false_2. exact (Hc 0%N).
  - apply pretty_N_go_no; done.
Qed.

(** ** The description written by [convert_tw_to_gcal] *)

Lemma nl_app X : (nl_s ++ X)%string = String nl X.
Proof. reflexivity. Qed.

Lemma split_head c y : PyStr.split c (String c y) = EmptyString :: PyStr.split c y.
Proof. simpl. rewrite bool_decide_eq_true_2 by done. done. Qed.

Lemma meta_no_nl : PyStr.has_char nl meta_title = false.
Proof. reflexivity. Qed.

Lemma meta_ne : meta_title <> EmptyString.
Proof. discriminate. Qed.

Lemma statuses_cases (P : string -> Prop) s :
  s ∈ statuses -> P "pending" -> P "completed" -> P "deleted" -> P "waiting" ->
  P "recurring" -> P s.
Proof.
  intros H. apply list_elem_of_In in H. simpl in H.
  intros ? ? ? ? ?. destruct H as [<-|[<-|[<-|[<-|[<-|[]]]]]]; done.
Qed.

Lemma statuses_no_nl s : s ∈ statuses -> PyStr.has_char nl s = false.
Proof. intros H. apply (statuses_cases (fun s => PyStr.has_char nl s = false)); done. Qed.

Lemma split_gen anns S U :
  PyStr.has_char nl S = false -> PyStr.has_char nl U = false ->
  PyStr.split nl (meta_title ++ nl_s ++ anns ++ nl_s ++ nl_s ++ "* status: " ++ S
                  ++ nl_s ++ "* uuid: " ++ U)
  = ([meta_title] ++ PyStr.split nl anns
     ++ [EmptyString; ("* status: " ++ S)%string; ("* uuid: " ++ U)%string])%list.
Proof.
  intros HS HU. rewrite !nl_app.
  rewrite (split_app_sep nl meta_title), (split_nochar nl meta_title) by exact meta_no_nl.
  rewrite (split_app_sep nl anns), split_head.
  rewrite <- (str_app_assoc "* status: " S), split_app_sep.
  rewrite (split_nochar nl ("* status: " ++ S)), (split_nochar nl ("* uuid: " ++ U)).
  - done.
  - rewrite has_char_app, HU. reflexivity.
  - rewrite has_char_app, HS. reflexivity.
Qed.

Lemma desc_lines_gen anns S U :
  PyStr.has_char nl S = false -> PyStr.has_char nl U = false ->
  desc_lines (meta_title ++ nl_s ++ anns ++ nl_s ++ nl_s ++ "* status: " ++ S
              ++ nl_s ++ "* uuid: " ++ U)
  = (map PyStr.strip (filter (fun l => l ≠ EmptyString) (PyStr.split nl anns))
     ++ [PyStr.strip ("* status: " ++ S)%string; PyStr.strip ("* uuid: " ++ U)%string])%list.
Proof.
  intros HS HU. unfold desc_lines. rewrite split_gen by done.
  rewrite !filter_app, filter_cons_True, filter_nil by exact meta_ne.
  rewrite filter_cons_False by (intros H; apply H; done).
  rewrite filter_cons_True by discriminate.
  rewrite filter_cons_True by discriminate.
  rewrite filter_nil. simpl. rewrite map_app. done.
Qed.

Lemma is_ann_status S :
  S ∈ statuses -> is_annotation_line (PyStr.strip ("* status: " ++ S)) = None.
Proof.
  intros H. apply (statuses_cases (fun S => is_annotation_line (PyStr.strip ("* status: " ++ S)) = None));
    done || vm_compute; reflexivity.
Qed.

Lemma loop_prefix idx cur ls x rest :
  cur <= idx -> is_annotation_line x = None ->
  (annotation_loop idx cur (ls ++ x :: rest)).1 = (annotation_loop idx cur ls).1 /\
  (annotation_loop idx cur (ls ++ x :: rest)).2 <= idx + length ls.
Proof.
  revert idx cur. induction ls as [|l ls IH]; intros idx cur Hc Hx; simpl.
  - rewrite Hx. simpl. split; [done|lia].
  - destruct (is_annotation_line l) as [a|]; simpl; [|split; [done|lia]].
    destruct (IH (S idx) idx ltac:(lia) Hx) as [H1 H2].
    destruct (annotation_loop (S idx) idx (ls ++ x :: rest)) as [a1 i1].
    destruct (annotation_loop (S idx) idx ls) as [a2 i2].
    simpl in *. split; [congruence|lia].
Qed.

Lemma scan_ok ls st u w : exists p w', scan_lines ls st u w = (Ok p, w').
Proof.
  revert st u w. induction ls as [|l ls IH]; intros st u w; simpl.
  - eexists _, _. reflexivity.
  - destruct (PyStr.split1 colon l) as [|p0 [|p1 [|? ?]]]; try apply IH.
    destruct (PyStr.startswith _ "* status"); [apply IH|].
    destruct (PyStr.startswith _ "* uuid"); [|apply IH].
    destruct (uuid_parse _); [apply IH|].
    unfold mbind, M_bind, bind, emit. apply IH.
Qed.

Lemma scan_app ls1 ls2 st u w :
  scan_lines (ls1 ++ ls2) st u w
  = bind (scan_lines ls1 st u) (fun p => scan_lines ls2 p.1 p.2) w.
Proof.
  revert st u w. induction ls1 as [|l ls IH]; intros st u w; simpl.
  - reflexivity.
  - destruct (PyStr.split1 colon l) as [|p0 [|p1 [|? ?]]]; try apply IH.
    destruct (PyStr.startswith _ "* status"); [apply IH|].
    destruct (PyStr.startswith _ "* uuid"); [|apply IH].
    destruct (uuid_parse _); [apply IH|].
    unfold mbind, M_bind, bind at 1 3, emit. apply IH.
Qed.

Lemma strip_space_prefix U :
  PyStr.lstrip U = U -> PyStr.rstrip U = U -> PyStr.strip (" " ++ U) = U.
Proof. intros H1 H2. unfold PyStr.strip. simpl. rewrite H1. exact H2. Qed.

Lemma uuid_line U :
  PyStr.lstrip U = U -> PyStr.rstrip U = U ->
  exists p1, PyStr.split1 colon (PyStr.strip ("* uuid: " ++ U)) = ["* uuid"; p1] /\
             PyStr.strip p1 = U.
Proof.
  intros H1 H2. destruct (decide (U = EmptyString)) as [->|HU].
  - exists EmptyString. split; reflexivity.
  - exists (" " ++ U)%string. split; [|by apply strip_space_prefix].
    unfold PyStr.strip.
    replace (PyStr.lstrip ("* uuid: " ++ U)) with ("* uuid: " ++ U)%string by reflexivity.
    rewrite (rstrip_app_ne "* uuid: " U) by congruence. rewrite H2. reflexivity.
Qed.

Lemma scan_tail S U u st u0 w :
  S ∈ statuses -> PyStr.lstrip U = U -> PyStr.rstrip U = U -> uuid_parse U = Some u ->
  scan_lines [PyStr.strip ("* status: " ++ S); PyStr.strip ("* uuid: " ++ U)] st u0 w
  = (Ok (S, Some u), w).
Proof.
  intros HS H1 H2 Hp. destruct (uuid_line U H1 H2) as [p1 [Hs Hp1]].
  remember (PyStr.strip ("* uuid: " ++ U)) as UL eqn:EUL. clear EUL.
  revert st u0 w.
  apply (statuses_cases (fun S => forall st u0 w, scan_lines [PyStr.strip ("* status: " ++ S); UL] st u0 w = (Ok (S, Some u), w))); [exact HS| | | | |];
    intros st u0 w; simpl; rewrite Hs; simpl; rewrite Hp1, Hp; reflexivity.
Qed.

Lemma parse_gen g anns S U u w :
  g !! "description" = Some (VStr (meta_title ++ nl_s ++ anns ++ nl_s ++ nl_s
                                    ++ "* status: " ++ S ++ nl_s ++ "* uuid: " ++ U)) ->
  S ∈ statuses -> PyStr.has_char nl U = false ->
  PyStr.lstrip U = U -> PyStr.rstrip U = U -> uuid_parse U = Some u ->
  exists w', parse_gcal_item_desc g w
             = (Ok ((annotation_loop 0 0 (ann_region anns)).1, S, Some u), w').
Proof.
  intros Hd HS HnU H1 H2 Hp. unfold parse_gcal_item_desc. rewrite Hd.
  rewrite desc_lines_gen by (done || by apply statuses_no_nl).
  fold (ann_region anns).
  destruct (loop_prefix 0 0 (ann_region anns) (PyStr.strip ("* status: " ++ S))
              [PyStr.strip ("* uuid: " ++ U)] ltac:(lia) (is_ann_status S HS)) as [Ha Hi].
  destruct (annotation_loop 0 0 _) as [anns' i] eqn:E. simpl in Ha, Hi.
  rewrite bool_decide_eq_false_2 by (rewrite length_app; simpl; lia).
  rewrite drop_app_le by lia.
  unfold mbind at 1, M_bind. unfold bind at 1. rewrite scan_app.
  destruct (scan_ok (drop i (ann_region anns)) "pending" None w) as [p [w1 Hw1]].
  unfold bind at 1. rewrite Hw1. rewrite (scan_tail S U u) by done. rewrite Ha.
  exists w1. reflexivity.
Qed.

Lemma strip_ann_text i a :
  PyStr.lstrip a = a -> PyStr.rstrip a = a ->
  exists p1, PyStr.strip (annotation_text i a)
             = (("* Annotation " ++ pretty (S i)) ++ String colon p1)%string /\
             PyStr.strip p1 = a.
Proof.
  intros H1 H2. unfold annotation_text, PyStr.strip.
  change (PyStr.lstrip ("* Annotation " ++ pretty (S i) ++ ": " ++ a))
    with ("* Annotation " ++ (pretty (S i) ++ ": " ++ a))%string.
  rewrite <- !str_app_assoc.
  destruct (decide (a = EmptyString)) as [->|Ha].
  - exists EmptyString. split; [|reflexivity]. rewrite str_app_nil.
    change (": ")%string with (":" ++ " ")%string. rewrite <- str_app_assoc.
    rewrite rstrip_app_empty by reflexivity.
    rewrite rstrip_app_ne by (vm_compute; discriminate). reflexivity.
  - exists (" " ++ a)%string. split; [|by apply strip_space_prefix].
    rewrite rstrip_app_ne by congruence. rewrite H2, str_app_assoc. reflexivity.
Qed.

Lemma startswith_lower_ann D :
  PyStr.startswith (PyStr.lower ("* Annotation " ++ D)) "* annotation" = true.
Proof. rewrite lower_app. exact (startswith_app "* annotation" (" " ++ PyStr.lower D)). Qed.

Lemma ann_line_parse i a :
  PyStr.lstrip a = a -> PyStr.rstrip a = a ->
  is_annotation_line (PyStr.strip (annotation_text i a)) = Some a.
Proof.
  intros H1 H2. destruct (strip_ann_text i a H1 H2) as [p1 [-> Hp1]].
  unfold is_annotation_line, PyStr.split1.
  rewrite break_at_app
    by (rewrite has_char_app, pretty_nat_no by apply digit_not_colon; reflexivity).
  rewrite startswith_lower_ann, Hp1. reflexivity.
Qed.

Lemma annotation_text_no_nl i a :
  PyStr.has_char nl a = false -> PyStr.has_char nl (annotation_text i a) = false.
Proof.
  intros H. unfold annotation_text.
  rewrite !has_char_app, pretty_nat_no by apply digit_not_nl. rewrite H. reflexivity.
Qed.

Lemma split_ann_lines X i l :
  Forall (fun a => PyStr.has_char nl a = false) l ->
  PyStr.split nl (X ++ annotation_lines i l) = (PyStr.split nl X ++ annotation_texts i l)%list.
Proof.
  revert X i. induction l as [|a l IH]; intros X i HF.
  - cbn [annotation_lines annotation_texts]. rewrite str_app_nil, app_nil_r. done.
  - apply Forall_cons in HF as [Ha HF]. cbn [annotation_lines annotation_texts].
    rewrite nl_app, split_app_sep, IH by exact HF.
    rewrite (split_nochar nl (annotation_text i a)) by (apply annotation_text_no_nl; exact Ha).
    done.
Qed.

Lemma texts_loop l :
  Forall ann_ok l -> forall i idx cur,
  (annotation_loop idx cur
     (map PyStr.strip (filter (fun l => l ≠ EmptyString) (annotation_texts i l)))).1 = l.
Proof.
  induction l as [|a l IH]; intros HF i idx cur; [reflexivity|].
  apply Forall_cons in HF as [[Hn [H1 H2]] HF]. cbn [annotation_texts].
  rewrite filter_cons_True by (unfold annotation_text; discriminate).
  rewrite map_cons. cbn [annotation_loop]. rewrite ann_line_parse by done.
  specialize (IH HF (S i) (S idx) idx).
  destruct (annotation_loop (S idx) idx _) as [a1 i1]. simpl in *. congruence.
Qed.

Lemma ann_region_lines l :
  Forall ann_ok l -> (annotation_loop 0 0 (ann_region (annotation_lines 0 l))).1 = l.
Proof.
  intros HF. unfold ann_region.
  change (annotation_lines 0 l) with (EmptyString ++ annotation_lines 0 l)%string.
  rewrite split_ann_lines by (eapply Forall_impl; [exact HF|]; intros a [? _]; done).
  simpl. rewrite filter_cons_False by (intros H; apply H; done).
  apply texts_loop. exact HF.
Qed.

Lemma convert_gcal_gen g anns S U u sv a b w :
  g !! "description" = Some (VStr (meta_title ++ nl_s ++ anns ++ nl_s ++ nl_s
                                    ++ "* status: " ++ S ++ nl_s ++ "* uuid: " ++ U)) ->
  S ∈ statuses -> PyStr.has_char nl U = false ->
  PyStr.lstrip U = U -> PyStr.rstrip U = U -> uuid_parse U = Some u ->
  g !! "summary" = Some sv ->
  g !! "start" = Some (VDict [("dateTime", a)]) ->
  g !! "end" = Some (VDict [("dateTime", b)]) ->
  exists w', convert_gcal_to_tw g w
    = (Ok (<["due" := VDate (parse_datetime b)]>
           (<["entry" := VDate (parse_datetime a)]>
            (<["description" := sv]>
             (<["uuid" := VUuid u]>
              (<["status" := VStr S]>
               (<["annotations" := VList (annotation_loop 0 0 (ann_region anns)).1]> ∅)))))),
       w').
Proof.
  intros Hd HS HnU H1 H2 Hp Hsum Hst Hen.
  destruct (parse_gen g anns S U u w Hd HS HnU H1 H2 Hp) as [w1 Hw1].
  unfold convert_gcal_to_tw. unfold mbind at 1, M_bind, bind at 1. rewrite Hw1.
  rewrite bool_decide_eq_true_2 by exact HS.
  unfold getitem. rewrite Hsum, Hst, Hen. eexists. reflexivity.
Qed.

Lemma convert_tw_gen (t : item) dv s u t0 od ol w :
  t !! "description" = Some dv -> t !! "status" = Some (VStr s) ->
  t !! "uuid" = Some (VUuid u) -> t !! "entry" = Some (VDate t0) ->
  t !! "due" = VDate <$> od -> t !! "annotations" = VList <$> ol ->
  convert_tw_to_gcal t w
  = (Ok (<["summary" := dv]>
         (<["description" := VStr (meta_title ++ nl_s ++ annotation_lines 0 (default [] ol)
                                   ++ nl_s ++ nl_s ++ "* status: " ++ s
                                   ++ nl_s ++ "* uuid: " ++ uuid_str u)]>
          (<["start" := VDict [("dateTime", format_datetime t0)]]>
           (<["end" := VDict [("dateTime", format_datetime (default (add_one_day t0) od))]]>
            ∅)))), w).
Proof.
  intros Hd Hs Hu He Hdue Ha. unfold convert_tw_to_gcal, getitem.
  rewrite Hd, Hs, Hu, He, Hdue, Ha. destruct od, ol; reflexivity.
Qed.

(** ** Round trips between the two shapes *)

(** C7: a task with description [d], status [pending], uuid [u], entry [t0]
    and due [od] (absent or a timestamp) converts to a calendar item with
    summary [d], start [t0], end the due timestamp or else [t0] plus one day,
    and a description holding the lines [* status: pending] and [* uuid: u];
    converting it back gives status [pending], uuid [u], entry [t0] and due
    the end timestamp.  Assumed of the collaborators: the uuid's string form
    is trimmed, has no newline and parses back to it, and the calendar
    timestamp format parses back to the formatted timestamps. *)
Theorem tw_gcal_round_trip_pending (t : item) dv u t0 od ol w :
  t !! "description" = Some dv -> t !! "status" = Some (VStr "pending") ->
  t !! "uuid" = Some (VUuid u) -> t !! "entry" = Some (VDate t0) ->
  t !! "due" = VDate <$> od -> t !! "annotations" = VList <$> ol ->
  uuid_parse (uuid_str u) = Some u -> PyStr.has_char nl (uuid_str u) = false ->
  PyStr.lstrip (uuid_str u) = uuid_str u -> PyStr.rstrip (uuid_str u) = uuid_str u ->
  parse_datetime (format_datetime t0) = t0 ->
  parse_datetime (format_datetime (default (add_one_day t0) od)) = default (add_one_day t0) od ->
  exists g w1,
    convert_tw_to_gcal t w = (Ok g, w1) /\
    g !! "summary" = Some dv /\
    g !! "start" = Some (VDict [("dateTime", format_datetime t0)]) /\
    g !! "end" = Some (VDict [("dateTime", format_datetime (default (add_one_day t0) od))]) /\
    (exists dsc, g !! "description" = Some (VStr dsc) /\
       "* status: pending" ∈ PyStr.split nl dsc /\
       ("* uuid: " ++ uuid_str u)%string ∈ PyStr.split nl dsc) /\
    exists t' w2,
      convert_gcal_to_tw g w1 = (Ok t', w2) /\
      t' !! "status" = Some (VStr "pending") /\
      t' !! "uuid" = Some (VUuid u) /\
      t' !! "entry" = Some (VDate t0) /\
      t' !! "due" = Some (VDate (default (add_one_day t0) od)).
Proof.
  intros Hd Hs Hu He Hdue Ha Hp Hn H1 H2 Ht0 Hend.
  rewrite (convert_tw_gen t dv "pending" u t0 od ol w Hd Hs Hu He Hdue Ha).
  eexists _, w. split; [reflexivity|].
  split; [by simplify_map_eq|]. split; [by simplify_map_eq|]. split; [by simplify_map_eq|].
  split.
  { exists (meta_title ++ nl_s ++ annotation_lines 0 (default [] ol) ++ nl_s ++ nl_s
            ++ "* status: " ++ "pending" ++ nl_s ++ "* uuid: " ++ uuid_str u)%string.
    split; [by simplify_map_eq|].
    rewrite split_gen by (reflexivity || exact Hn).
    split; apply elem_of_app; right; apply elem_of_app; right.
    - apply elem_of_cons; right; apply elem_of_cons; left; reflexivity.
    - apply elem_of_cons; right; apply elem_of_cons; right; apply elem_of_cons; left; reflexivity. }
  match goal with |- context [convert_gcal_to_tw ?G] => set (gg := G) end.
  destruct (convert_gcal_gen gg (annotation_lines 0 (default [] ol)) "pending" (uuid_str u) u dv
              (format_datetime t0) (format_datetime (default (add_one_day t0) od)) w
              ltac:(unfold gg; by simplify_map_eq)
              ltac:(apply list_elem_of_In; left; reflexivity) Hn H1 H2 Hp
              ltac:(unfold gg; by simplify_map_eq) ltac:(unfold gg; by simplify_map_eq)
              ltac:(unfold gg; by simplify_map_eq)) as [w2 Hw2].
  rewrite Hw2. eexists _, _. split; [reflexivity|].
  rewrite Ht0, Hend. repeat split; by simplify_map_eq.
Qed.

(** C2 (as the code has it): for a task whose status is one of the five
    statuses, whose uuid and entry are set, whose due is absent or a
    timestamp, whose [annotations] field is a list of single-line trimmed
    texts, and which has no field other than description, status, uuid,
    annotations, entry, due, id, tags and urgency, the round trip
    calendar -> task of task -> calendar succeeds and agrees with the task on
    every key outside [entry, due, id, tags, urgency].  (Same assumptions on
    the uuid's string form as above.) *)
Theorem tw_gcal_round_trip_keys (t : item) dv s u t0 od l w :
  t !! "description" = Some dv -> t !! "status" = Some (VStr s) -> s ∈ statuses ->
  t !! "uuid" = Some (VUuid u) -> t !! "entry" = Some (VDate t0) ->
  t !! "due" = VDate <$> od -> t !! "annotations" = Some (VList l) -> Forall ann_ok l ->
  (forall k, k ∉ ["description"; "status"; "uuid"; "annotations"; "entry"; "due";
                  "id"; "tags"; "urgency"] -> t !! k = None) ->
  uuid_parse (uuid_str u) = Some u -> PyStr.has_char nl (uuid_str u) = false ->
  PyStr.lstrip (uuid_str u) = uuid_str u -> PyStr.rstrip (uuid_str u) = uuid_str u ->
  exists g w1 t' w2,
    convert_tw_to_gcal t w = (Ok g, w1) /\ convert_gcal_to_tw g w1 = (Ok t', w2) /\
    forall k, k ∉ ["entry"; "due"; "id"; "tags"; "urgency"] -> t' !! k = t !! k.
Proof.
  intros Hd Hs HS Hu He Hdue Ha Hl Hother Hp Hn H1 H2.
  rewrite (convert_tw_gen t dv s u t0 od (Some l) w Hd Hs Hu He Hdue Ha).
  match goal with |- context [(Ok ?G, w)] => set (gg := G) end.
  destruct (convert_gcal_gen gg (annotation_lines 0 l) s (uuid_str u) u dv
              (format_datetime t0) (format_datetime (default (add_one_day t0) od)) w
              ltac:(unfold gg; by simplify_map_eq) HS Hn H1 H2 Hp
              ltac:(unfold gg; by simplify_map_eq) ltac:(unfold gg; by simplify_map_eq)
              ltac:(unfold gg; by simplify_map_eq)) as [w2 Hw2].
  eexists _, _, _, _. split; [reflexivity|]. split; [exact Hw2|].
  rewrite ann_region_lines by exact Hl. simpl.
  intros k Hk. rewrite !lookup_insert, lookup_empty.
  repeat case_decide; subst.
  - exfalso. apply Hk. set_solver.
  - exfalso. apply Hk. set_solver.
  - done.
  - done.
  - done.
  - done.
  - symmetry. apply Hother. set_solver.
Qed.

(** C3 (as the code has it): when the parsed status is not one of the five
    statuses, [convert_gcal_to_tw] logs the warning and returns a task with
    no [status] field; it does not fail when the item has a summary and
    start and end times. *)
Theorem convert_gcal_to_tw_invalid_status g w anns st u w1 sv d1 d2 :
  parse_gcal_item_desc g w = (Ok (anns, st, u), w1) -> st ∉ statuses ->
  g !! "summary" = Some sv ->
  g !! "start" = Some (VDict d1) -> is_Some (list_find (fun kv => kv.1 = "dateTime") d1) ->
  g !! "end" = Some (VDict d2) -> is_Some (list_find (fun kv => kv.1 = "dateTime") d2) ->
  exists t w', convert_gcal_to_tw g w = (Ok t, w') /\ t !! "status" = None /\
    LWarn ("Invalid status " ++ st ++ " in GCal->TW conversion of item. Skipping status:")
      ∈ w_logs w'.
Proof.
  intros Hp HS Hsum Hst [[i1 kv1] E1] Hen [[i2 kv2] E2].
  unfold convert_gcal_to_tw. unfold mbind at 1, M_bind, bind at 1. rewrite Hp.
  rewrite bool_decide_eq_false_2 by exact HS.
  unfold getitem. rewrite Hsum, Hst, Hen.
  unfold getitem_assoc, mbind, M_bind, bind, ret, emit, as_dict. simpl.
  rewrite E1, E2.
  eexists _, _. split; [reflexivity|]. split.
  - destruct u; by simplify_map_eq.
  - simpl. apply elem_of_app. right. apply list_elem_of_singleton. reflexivity.
Qed.

(** C4 (code_bug).  The description [IMPORTED FROM TASKWARRIOR\n* status:
    completed] parses to no annotations, status [pending] and no uuid: the
    annotation run stops at the status line, which is the last line, and
    the [if i == len(lines) - 1: return] exit skips the status scan. *)
Theorem parse_gcal_item_desc_last_line_skipped (w : world) :
  parse_gcal_item_desc
    {[ "description" := VStr (meta_title ++ nl_s ++ "* status: completed") ]} w
  = (Ok ([], "pending", None), w).
Proof. reflexivity. Qed.

(** ** More of the conversions *)

Lemma convert_tw_to_gcal_world t w : snd (convert_tw_to_gcal t w) = w.
Proof.
  unfold convert_tw_to_gcal, py_assert, getitem, as_datetime, py_iter,
    mbind, M_bind, bind, ret, raise.
  repeat (case_match; simplify_eq/=); done.
Qed.

(** X1: [convert_tw_to_gcal] succeeds exactly when the task has a
    description, a status and a uuid, its [annotations] (if present) can be
    iterated, its entry is a timestamp and its due (if present) is a
    timestamp; otherwise it raises. *)
Theorem convert_tw_to_gcal_ok_iff (t : item) (w : world) :
  (exists g, fst (convert_tw_to_gcal t w) = Ok g) <->
  is_Some (t !! "description") /\ is_Some (t !! "status") /\ is_Some (t !! "uuid") /\
  (forall v, t !! "annotations" = Some v -> py_iterable v) /\
  (exists d, t !! "entry" = Some (VDate d)) /\
  (forall v, t !! "due" = Some v -> exists d, v = VDate d).
Proof.
  unfold convert_tw_to_gcal, py_assert, getitem, as_datetime, py_iter,
    mbind, M_bind, bind, ret, raise.
  split.
  - intros [g Hg]. repeat (case_match; simplify_eq/=); naive_solver.
  - intros ([dv Hd] & [sv Hs] & [uv Hu] & Ha & [d He] & Hdue).
    rewrite Hd, Hs, Hu. simpl.
    destruct (t !! "annotations") as [av|] eqn:Ea.
    + specialize (Ha av eq_refl). destruct av; try contradiction; simpl;
        rewrite He; destruct (t !! "due") as [v|]; try (destruct (Hdue v eq_refl) as [? ->]);
        simpl; eauto.
    + simpl. rewrite He. destruct (t !! "due") as [v|]; try (destruct (Hdue v eq_refl) as [? ->]);
        simpl; eauto.
Qed.

(** X2: [convert_tw_to_gcal] never logs, calls a store or touches the table,
    whether it succeeds or raises; a calendar item it returns has exactly the
    keys summary, description, start and end, and its summary is the task's
    description field. *)
Theorem convert_tw_to_gcal_frame (t : item) (w : world) :
  snd (convert_tw_to_gcal t w) = w /\
  forall g, fst (convert_tw_to_gcal t w) = Ok g ->
    dom g = {[ "summary"; "description"; "start"; "end" ]} /\
    g !! "summary" = t !! "description".
Proof.
  split; [apply convert_tw_to_gcal_world|]. intros g Hg.
  unfold convert_tw_to_gcal, py_assert, getitem, as_datetime, py_iter,
    mbind, M_bind, bind, ret, raise in Hg.
  repeat (case_match; simplify_eq/=);
    (split; [rewrite !dom_insert_L, dom_empty_L; set_solver | by simplify_map_eq]).
Qed.

Lemma parse_desc_outcome g w :
  match g !! "description" with
  | Some (VStr _) | None => exists p w', parse_gcal_item_desc g w = (Ok p, w')
  | Some _ => parse_gcal_item_desc g w = (Err AttributeError, w)
  end.
Proof.
  unfold parse_gcal_item_desc.
  destruct (g !! "description") as [[s| | | | |]|]; try reflexivity; [|eexists _, _; reflexivity].
  destruct (annotation_loop 0 0 (desc_lines s)) as [anns i].
  case_bool_decide; [eexists _, _; reflexivity|].
  unfold mbind, M_bind, bind.
  destruct (scan_ok (drop i (desc_lines s)) "pending" None w) as [[st u] [w' E]].
  rewrite E. eexists _, _. reflexivity.
Qed.

Lemma convert_gcal_to_tw_shape g w t w1 :
  convert_gcal_to_tw g w = (Ok t, w1) ->
  exists anns st u w0 sv a b,
    parse_gcal_item_desc g w = (Ok (anns, st, u), w0) /\ g !! "summary" = Some sv /\
    t = <["due" := VDate (parse_datetime b)]>
         (<["entry" := VDate (parse_datetime a)]>
          (<["description" := sv]>
           (let tw2 := if bool_decide (st ∈ statuses)
                       then <["status" := VStr st]> (<["annotations" := VList anns]> ∅)
                       else <["annotations" := VList anns]> ∅ in
            match u with Some u' => <["uuid" := VUuid u']> tw2 | None => tw2 end))).
Proof.
  intros H. unfold convert_gcal_to_tw in H. unfold mbind at 1, M_bind, bind at 1 in H.
  destruct (parse_gcal_item_desc g w) as [[[[anns st] u]|e] w0] eqn:Ep; [|discriminate].
  exists anns, st, u, w0.
  destruct (bool_decide (st ∈ statuses));
  unfold getitem, as_dict, getitem_assoc, mbind, M_bind, bind, ret, emit, raise in H;
  repeat (case_match; simplify_eq/=); eexists _, _, _; (split; [reflexivity|]);
    (split; [reflexivity|]); reflexivity.
Qed.

(** X4: a task built by [convert_gcal_to_tw] holds the parsed annotations,
    the parsed status exactly when it is one of the five statuses, the
    parsed uuid exactly when there is one, the event's summary as
    description, an entry and a due, and no other field. *)
Theorem convert_gcal_to_tw_fields (g : item) (w : world) (t : item) (w1 : world) :
  convert_gcal_to_tw g w = (Ok t, w1) ->
  exists anns st u w0, parse_gcal_item_desc g w = (Ok (anns, st, u), w0) /\
    t !! "annotations" = Some (VList anns) /\
    t !! "status" = (if bool_decide (st ∈ statuses) then Some (VStr st) else None) /\
    t !! "uuid" = VUuid <$> u /\
    t !! "description" = g !! "summary" /\
    is_Some (t !! "entry") /\ is_Some (t !! "due") /\
    (forall k, k ∉ ["annotations"; "status"; "uuid"; "description"; "entry"; "due"] ->
       t !! k = None).
Proof.
  intros H. destruct (convert_gcal_to_tw_shape g w t w1 H)
    as (anns & st & u & w0 & sv & a & b & Ep & Hs & ->).
  exists anns, st, u, w0. split; [exact Ep|]. rewrite Hs. cbv zeta.
  destruct (bool_decide (st ∈ statuses)); destruct u as [u'|];
    (split; [by simplify_map_eq|]); (split; [by simplify_map_eq|]);
    (split; [by simplify_map_eq|]); (split; [by simplify_map_eq|]);
    (split; [by simplify_map_eq|]); (split; [by simplify_map_eq|]);
    intros k Hk; rewrite !lookup_insert, lookup_empty;
    repeat case_decide; subst; try reflexivity; exfalso; apply Hk; set_solver.
Qed.

(** X3: [convert_gcal_to_tw] succeeds exactly when the event's description
    (if present) is a string, it has a summary, and its start and end are
    dicts with a [dateTime] entry. *)
Theorem convert_gcal_to_tw_ok_iff (g : item) (w : world) :
  (exists t, fst (convert_gcal_to_tw g w) = Ok t) <->
  (forall v, g !! "description" = Some v -> exists s, v = VStr s) /\
  is_Some (g !! "summary") /\
  (exists d, g !! "start" = Some (VDict d) /\
             is_Some (list_find (fun kv => kv.1 = "dateTime") d)) /\
  (exists d, g !! "end" = Some (VDict d) /\
             is_Some (list_find (fun kv => kv.1 = "dateTime") d)).
Proof.
  pose proof (parse_desc_outcome g w) as Ho.
  unfold convert_gcal_to_tw. unfold mbind at 1, M_bind, bind at 1.
  destruct (g !! "description") as [[s| | | | |]|] eqn:Ed;
    try (rewrite Ho; simpl; split; [intros [? ?]; discriminate|];
         intros [Hv _]; destruct (Hv _ eq_refl); discriminate).
  - destruct Ho as [[[anns st] u] [w0 Ep]]. rewrite Ep.
    destruct (bool_decide (st ∈ statuses));
    unfold getitem, as_dict, getitem_assoc, mbind, M_bind, bind, ret, emit, raise;
    (split; [intros [t Ht]|intros (_ & [sv Hsv] & (d1 & Hst & [[i1 kv1] E1]) & (d2 & Hen & [[i2 kv2] E2]))]);
    repeat (case_match; simplify_eq/=); try naive_solver;
    rewrite ?Hsv, ?Hst, ?Hen, ?E1, ?E2 in *; simplify_eq/=; eauto.
  - destruct Ho as [[[anns st] u] [w0 Ep]]. rewrite Ep.
    destruct (bool_decide (st ∈ statuses));
    unfold getitem, as_dict, getitem_assoc, mbind, M_bind, bind, ret, emit, raise;
    (split; [intros [t Ht]|intros (_ & [sv Hsv] & (d1 & Hst & [[i1 kv1] E1]) & (d2 & Hen & [[i2 kv2] E2]))]);
    repeat (case_match; simplify_eq/=); try naive_solver;
    rewrite ?Hsv, ?Hst, ?Hen, ?E1, ?E2 in *; simplify_eq/=; eauto.
Qed.

(** ** What [_parse_gcal_item_desc] reads back as an annotation *)

Lemma lstrip_length s : String.length (PyStr.lstrip s) <= String.length s.
Proof. induction s as [|a s IH]; simpl; [lia|]. destruct (PyStr.is_space a); simpl; lia. Qed.

Lemma lstrip_idem s : PyStr.lstrip (PyStr.lstrip s) = PyStr.lstrip s.
Proof.
  induction s as [|a s IH]; simpl; [done|].
  destruct (PyStr.is_space a) eqn:E; [exact IH|simpl; rewrite E; done].
Qed.

Lemma rstrip_idem s : PyStr.rstrip (PyStr.rstrip s) = PyStr.rstrip s.
Proof. unfold PyStr.rstrip. rewrite rev_rev, lstrip_idem. done. Qed.

Lemma lstrip_rstrip y : PyStr.lstrip y = y -> PyStr.lstrip (PyStr.rstrip y) = PyStr.rstrip y.
Proof.
  destruct y as [|a y']; [done|]. intros H.
  assert (Ha : PyStr.is_space a = false).
  { destruct (PyStr.is_space a) eqn:E; [|done]. simpl in H. rewrite E in H.
    pose proof (lstrip_length y') as L. rewrite H in L. simpl in L. lia. }
  change (String a y') with (String a EmptyString ++ y')%string.
  destruct (decide (PyStr.rstrip y' = EmptyString)) as [E|E].
  - rewrite rstrip_app_empty by exact E.
    unfold PyStr.rstrip. simpl. rewrite Ha. simpl. rewrite Ha. done.
  - rewrite rstrip_app_ne by exact E. simpl. rewrite Ha. done.
Qed.

Lemma has_char_rev c x : PyStr.has_char c (PyStr.rev x) = PyStr.has_char c x.
Proof.
  induction x as [|a x IH]; simpl; [done|].
  rewrite has_char_app, IH. simpl. rewrite orb_false_r, orb_comm. done.
Qed.

Lemma has_char_lstrip c x : PyStr.has_char c x = false -> PyStr.has_char c (PyStr.lstrip x) = false.
Proof.
  induction x as [|a x IH]; simpl; [done|]. intros H.
  apply orb_false_iff in H as [H1 H2].
  destruct (PyStr.is_space a); [apply IH, H2|simpl; rewrite H1, H2; done].
Qed.

Lemma has_char_strip c x : PyStr.has_char c x = false -> PyStr.has_char c (PyStr.strip x) = false.
Proof.
  intros H. unfold PyStr.strip, PyStr.rstrip.
  rewrite has_char_rev. apply has_char_lstrip. rewrite has_char_rev. apply has_char_lstrip, H.
Qed.

Lemma ann_ok_strip x : PyStr.has_char nl x = false -> ann_ok (PyStr.strip x).
Proof.
  intros H. split; [apply has_char_strip, H|]. split.
  - unfold PyStr.strip. apply lstrip_rstrip, lstrip_idem.
  - unfold PyStr.strip. apply rstrip_idem.
Qed.

Lemma split_no_sep c s : Forall (fun x => PyStr.has_char c x = false) (PyStr.split c s).
Proof.
  induction s as [|a s IH]; simpl; [constructor; [done|constructor]|].
  case_bool_decide as Ha.
  - constructor; [done|exact IH].
  - destruct (PyStr.split c s) as [|h t] eqn:E.
    + constructor; [simpl; rewrite bool_decide_eq_false_2 by exact Ha; done|constructor].
    + apply Forall_cons in IH as [Hh Ht]. constructor; [|exact Ht].
      simpl. rewrite bool_decide_eq_false_2 by exact Ha. exact Hh.
Qed.

Lemma break_at_no c d s b r :
  PyStr.break_at c s = Some (b, r) -> PyStr.has_char d s = false -> PyStr.has_char d r = false.
Proof.
  revert b. induction s as [|a s IH]; simpl; intros b E H; [discriminate|].
  apply orb_false_iff in H as [_ H].
  case_bool_decide; [congruence|].
  destruct (PyStr.break_at c s) as [[b' r']|] eqn:E'; [|discriminate].
  injection E as <- <-. eapply IH; [reflexivity|exact H].
Qed.

Lemma is_annotation_line_ok l a :
  PyStr.has_char nl l = false -> is_annotation_line l = Some a -> ann_ok a.
Proof.
  unfold is_annotation_line, PyStr.split1. intros H.
  destruct (PyStr.break_at colon l) as [[b r]|] eqn:E; [|discriminate].
  destruct (PyStr.startswith _ _); [|discriminate]. intros [= <-].
  apply ann_ok_strip. eapply break_at_no; [exact E|exact H].
Qed.

Lemma annotation_loop_ok idx cur ls :
  Forall (fun l => PyStr.has_char nl l = false) ls ->
  Forall ann_ok (annotation_loop idx cur ls).1.
Proof.
  revert idx cur. induction ls as [|l ls IH]; intros idx cur HF; simpl; [constructor|].
  apply Forall_cons in HF as [Hl HF].
  destruct (is_annotation_line l) as [a|] eqn:E; [|constructor].
  specialize (IH (S idx) idx HF).
  destruct (annotation_loop (S idx) idx ls) as [anns i]. simpl in *.
  constructor; [eapply is_annotation_line_ok; eassumption|exact IH].
Qed.

Lemma desc_lines_no_nl s : Forall (fun l => PyStr.has_char nl l = false) (desc_lines s).
Proof.
  unfold desc_lines. apply Forall_drop. apply Forall_map.
  apply Forall_forall. intros x Hx. apply list_elem_of_filter in Hx as [_ Hx].
  apply has_char_strip. pose proof (split_no_sep nl s) as HF.
  rewrite Forall_forall in HF. apply HF, Hx.
Qed.

Lemma parse_anns_ok g w anns st u w' :
  parse_gcal_item_desc g w = (Ok (anns, st, u), w') -> Forall ann_ok anns.
Proof.
  unfold parse_gcal_item_desc.
  destruct (g !! "description") as [[s| | | | |]|]; try discriminate;
    [|intros [= <- _ _ _]; constructor].
  pose proof (annotation_loop_ok 0 0 (desc_lines s) (desc_lines_no_nl s)) as HF.
  destruct (annotation_loop 0 0 (desc_lines s)) as [anns0 i]. simpl in HF.
  case_bool_decide; [intros [= <- _ _ _]; exact HF|].
  unfold mbind, M_bind, bind.
  destruct (scan_lines _ _ _ w) as [[[st0 u0]|e] w0]; [|discriminate].
  intros [= <- _ _ _]. exact HF.
Qed.

(** X5: a task converted from a calendar event, when it has a status and a
    uuid, converts to a calendar item and back to exactly the same task
    (given that uuids print trimmed on one line and parse back, and that the
    calendar timestamp format parses back).  Without a status or a uuid
    the way back to the calendar raises, by X1. *)
Theorem gcal_tw_round_trip_stable (g : item) (w : world) (t : item) (w1 : world) :
  convert_gcal_to_tw g w = (Ok t, w1) ->
  is_Some (t !! "status") -> is_Some (t !! "uuid") ->
  (forall u, uuid_parse (uuid_str u) = Some u) ->
  (forall u, PyStr.has_char nl (uuid_str u) = false) ->
  (forall u, PyStr.lstrip (uuid_str u) = uuid_str u) ->
  (forall u, PyStr.rstrip (uuid_str u) = uuid_str u) ->
  (forall d, parse_datetime (format_datetime d) = d) ->
  exists g' w2, convert_tw_to_gcal t w1 = (Ok g', w1) /\ convert_gcal_to_tw g' w1 = (Ok t, w2).
Proof.
  intros H Hst Hu Hp Hn H1 H2 Hpf.
  destruct (convert_gcal_to_tw_shape g w t w1 H)
    as (anns & st & u & w0 & sv & a & b & Ep & Hs & ->).
  pose proof (parse_anns_ok g w anns st u w0 Ep) as Hanns.
  cbv zeta in *.
  destruct (bool_decide (st ∈ statuses)) eqn:Eb.
  2:{ exfalso. destruct Hst as [? Hst]. destruct u; simplify_map_eq. }
  apply bool_decide_eq_true_1 in Eb.
  destruct u as [u'|].
  2:{ exfalso. destruct Hu as [? Hu]. simplify_map_eq. }
  rewrite (convert_tw_gen _ sv st u' (parse_datetime a) (Some (parse_datetime b)) (Some anns) w1)
    by by simplify_map_eq.
  cbn [default].
  match goal with |- context [(Ok ?G, w1)] => set (gg := G) end.
  destruct (convert_gcal_gen gg (annotation_lines 0 anns) st (uuid_str u') u' sv
              (format_datetime (parse_datetime a)) (format_datetime (parse_datetime b)) w1
              ltac:(unfold gg; by simplify_map_eq) Eb (Hn u') (H1 u') (H2 u') (Hp u')
              ltac:(unfold gg; by simplify_map_eq) ltac:(unfold gg; by simplify_map_eq)
              ltac:(unfold gg; by simplify_map_eq)) as [w2 Hw2].
  rewrite ann_region_lines, !Hpf in Hw2 by exact Hanns.
  exists gg, w2. split; [reflexivity|exact Hw2].
Qed.

(** ** [compare_tw_gcal_items] *)

(** X6: [compare_tw_gcal_items t g] reports no differing key and no
    changed value exactly when [g] converts to the task [t]. *)
Theorem compare_tw_gcal_items_same_iff (t g : item) (w : world) :
  fst (compare_tw_gcal_items t g w) = Ok (∅, ∅) <-> fst (convert_gcal_to_tw g w) = Ok t.
Proof.
  unfold compare_tw_gcal_items, mbind, M_bind, bind, ret.
  destruct (convert_gcal_to_tw g w) as [[t'|e] w1]; simpl; [|split; discriminate].
  split.
  - intros [= HD HC]. f_equal. apply map_eq. intros k.
    assert (Hk : k ∉ (dom t ∖ dom t') ∪ (dom t' ∖ dom t)) by (rewrite HD; set_solver).
    rewrite !elem_of_union, !elem_of_difference, !elem_of_dom in Hk.
    destruct (t !! k) as [a|] eqn:Ea, (t' !! k) as [b|] eqn:Eb; [|naive_solver|naive_solver|done].
    destruct (decide (a = b)) as [->|Hab]; [done|]. exfalso.
    assert (Hf : filter (fun kv : string * (value * value) => kv.2.1 ≠ kv.2.2)
                   (map_zip t t') !! k = Some (a, b))
      by (apply map_lookup_filter_Some; split; [apply map_lookup_zip_Some; done|exact Hab]).
    rewrite HC, lookup_empty in Hf. discriminate.
  - intros [= ->]. do 2 f_equal.
    + apply leibniz_equiv. set_solver.
    + apply map_empty_filter. intros k [a b] Hk. apply map_lookup_zip_Some in Hk as [Ha Hb].
      simpl in *. congruence.
Qed.

(** X7: comparing a task (of the shape of C2) with its own calendar form:
    no shared key has a changed value, and the differing keys are the task's
    [id], [tags] and [urgency] fields, plus [due] when the task has no due
    date (same assumptions on the uuid and the timestamp format as C7). *)
Theorem compare_tw_gcal_items_tw_round_trip (t : item) dv s u t0 od l w :
  t !! "description" = Some dv -> t !! "status" = Some (VStr s) -> s ∈ statuses ->
  t !! "uuid" = Some (VUuid u) -> t !! "entry" = Some (VDate t0) ->
  t !! "due" = VDate <$> od -> t !! "annotations" = Some (VList l) -> Forall ann_ok l ->
  (forall k, k ∉ ["description"; "status"; "uuid"; "annotations"; "entry"; "due";
                  "id"; "tags"; "urgency"] -> t !! k = None) ->
  uuid_parse (uuid_str u) = Some u -> PyStr.has_char nl (uuid_str u) = false ->
  PyStr.lstrip (uuid_str u) = uuid_str u -> PyStr.rstrip (uuid_str u) = uuid_str u ->
  parse_datetime (format_datetime t0) = t0 ->
  parse_datetime (format_datetime (default (add_one_day t0) od)) = default (add_one_day t0) od ->
  exists g D C w2,
    convert_tw_to_gcal t w = (Ok g, w) /\ compare_tw_gcal_items t g w = (Ok (D, C), w2) /\
    C = ∅ /\
    forall k, k ∈ D <-> (k ∈ ["id"; "tags"; "urgency"] /\ is_Some (t !! k)) \/
                        (k = "due" /\ od = None).
Proof.
  intros Hd Hs HS Hu He Hdue Ha Hl Hother Hp Hn H1 H2 Ht0 Hend.
  rewrite (convert_tw_gen t dv s u t0 od (Some l) w Hd Hs Hu He Hdue Ha).
  match goal with |- context [(Ok ?G, w)] => set (gg := G) end.
  destruct (convert_gcal_gen gg (annotation_lines 0 l) s (uuid_str u) u dv
              (format_datetime t0) (format_datetime (default (add_one_day t0) od)) w
              ltac:(unfold gg; by simplify_map_eq) HS Hn H1 H2 Hp
              ltac:(unfold gg; by simplify_map_eq) ltac:(unfold gg; by simplify_map_eq)
              ltac:(unfold gg; by simplify_map_eq)) as [w2 Hw2].
  rewrite ann_region_lines, Ht0, Hend in Hw2 by exact Hl.
  eexists _, _, _, _. split; [reflexivity|].
  unfold compare_tw_gcal_items, mbind, M_bind, bind, ret. rewrite Hw2.
  match goal with |- context [map_zip t ?T] => set (t' := T) end.
  assert (Ht' : forall k, t' !! k =
            if decide (k = "due") then Some (VDate (default (add_one_day t0) od))
            else if decide (k ∈ ["id"; "tags"; "urgency"]) then None else t !! k).
  { intros k. unfold t'.
    destruct (decide (k ∈ ["due"; "entry"; "description"; "uuid"; "status"; "annotations"]))
      as [Hin|Hnin].
    - repeat (apply elem_of_cons in Hin as [Hk|Hin]; [subst k; simplify_map_eq;
        repeat (case_decide as Hm; [first [discriminate | reflexivity
                 | exfalso; apply list_elem_of_In in Hm; simpl in Hm; intuition discriminate]|]);
        congruence|]).
      apply elem_of_nil in Hin. done.
    - rewrite !lookup_insert_ne, lookup_empty by (intros Heq; subst; apply Hnin; set_solver).
      rewrite decide_False by (intros Heq; subst; apply Hnin; set_solver).
      case_decide as Hm; [reflexivity|]. symmetry. apply Hother.
      set_solver. }
  split; [reflexivity|]. split.
  - apply map_empty_filter. intros k [a b] Hk. apply map_lookup_zip_Some in Hk as [Ek Ek'].
    simpl in *. rewrite Ht' in Ek'.
    destruct (decide (k = "due")) as [->|Hkd].
    + rewrite Hdue in Ek. destruct od as [d|]; simpl in *; congruence.
    + destruct (decide (k ∈ _)); congruence.
  - intros k. rewrite elem_of_union, !elem_of_difference, !elem_of_dom, Ht'.
    destruct (decide (k = "due")) as [->|Hkd].
    + assert (Hnd : "due" ∉ ["id"; "tags"; "urgency"]) by set_solver.
      rewrite Hdue. destruct od; simpl; unfold is_Some; naive_solver.
    + destruct (decide (k ∈ _)); unfold is_Some; naive_solver.
Qed.

(** ** More of [register_items] *)

(** X8: an item without the id key ([uuid] for tasks, [htmlLink] for
    events) stops [register_items] with [KeyError] of that key; the items
    before it stay registered and nothing more happens. *)
Theorem register_items_missing_id (ty : string) (pre post : list item) (x : item)
    (w w1 : world) :
  register_items pre ty w = (Ok tt, w1) ->
  x !! (if bool_decide (ty = "tw") then "uuid" else "htmlLink") = None ->
  register_items (pre ++ x :: post) ty w
  = (Err (KeyError (if bool_decide (ty = "tw") then "uuid" else "htmlLink")), w1).
Proof.
  intros Hpre Hx. destruct (decide (ty = "tw")) as [->|Htw].
  { rewrite (bool_decide_eq_true_2 ("tw" = "tw")) in * by done.
    rewrite register_items_tw in *. rewrite register_loop_app, Hpre. simpl.
    rewrite bind_w. unfold getitem. rewrite Hx. reflexivity. }
  rewrite (bool_decide_eq_false_2 (ty = "tw")) in * by exact Htw.
  destruct (decide (ty = "gcal")) as [->|Hg].
  { rewrite register_items_gcal in *. rewrite register_loop_app, Hpre. simpl.
    rewrite bind_w. unfold getitem. rewrite Hx. reflexivity. }
  rewrite register_items_other in Hpre by done. discriminate.
Qed.

(** X9: items that repeat earlier items of the same batch change nothing:
    registering [l1 ++ l2], where every item of [l2] is in [l1], ends as
    registering [l1] does, when that completes. *)
Theorem register_items_repeated (l1 l2 : list item) (ty : string) (w w' : world) :
  register_items l1 ty w = (Ok tt, w') -> (forall x, x ∈ l2 -> x ∈ l1) ->
  register_items (l1 ++ l2) ty w = (Ok tt, w').
Proof.
  intros Hrun Hsub. destruct (decide (ty = "tw")) as [->|Htw].
  { rewrite register_items_tw in *. rewrite register_loop_app, Hrun.
    apply register_loop_ok_keys in Hrun as [Hall _]; [|left; done].
    apply register_loop_skip. intros it Hit. apply Hall, Hsub, Hit. }
  destruct (decide (ty = "gcal")) as [->|Hg].
  { rewrite register_items_gcal in *. rewrite register_loop_app, Hrun.
    apply register_loop_ok_keys in Hrun as [Hall _]; [|right; done].
    apply register_loop_skip. intros it Hit. apply Hall, Hsub, Hit. }
  rewrite register_items_other in Hrun by done. discriminate.
Qed.

(** X10: after a completed [register_items], the string form of every
    item's id is registered: a key of the table for tasks, a value of it
    for events. *)
Theorem register_items_ids_registered (items : list item) (ty : string) (w w' : world) :
  register_items items ty w = (Ok tt, w') ->
  forall it, it ∈ items ->
    exists v, it !! (if bool_decide (ty = "tw") then "uuid" else "htmlLink") = Some v /\
      VStr (py_str v) ∈ view_keys (negb (bool_decide (ty = "tw"))) (w_table w').
Proof.
  intros Hrun. destruct (decide (ty = "tw")) as [->|Htw].
  { rewrite (bool_decide_eq_true_2 ("tw" = "tw")) by done.
    rewrite register_items_tw in Hrun.
    apply register_loop_ok_keys in Hrun as [Hall _]; [exact Hall|left; done]. }
  rewrite (bool_decide_eq_false_2 (ty = "tw")) by exact Htw.
  destruct (decide (ty = "gcal")) as [->|Hg].
  { rewrite register_items_gcal in Hrun.
    apply register_loop_ok_keys in Hrun as [Hall _]; [exact Hall|right; done]. }
  rewrite register_items_other in Hrun by done. discriminate.
Qed.

Lemma register_new_ok_step inv conv otk ty it v w u w' :
  (conv = convert_tw_to_gcal \/ conv = convert_gcal_to_tw) ->
  VStr (py_str v) ∉ view_keys inv (w_table w) ->
  register_new inv GCalSideS conv otk ty it v w = (Ok u, w') ->
  exists e c, w_table w' = (w_table w ++ [e])%list /\ w_calls w' = (w_calls w ++ [c])%list.
Proof.
  intros Hc Hk Hrun.
  pose proof (register_new_outcome inv GCalSideS conv otk ty it v w Hc Hk) as Ho.
  rewrite Hrun in Ho. destruct Ho as [nid [_ Ht]].
  exists (view_item inv (VStr (py_str v)) nid).
  unfold register_new in Hrun. rewrite bind_w in Hrun.
  destruct (emit _ w) as [r1 w1] eqn:E1. unfold emit in E1. injection E1 as <- E1.
  rewrite bind_w in Hrun. pose proof (conv_same_tc conv it w1 Hc) as [_ C2].
  destruct (conv it w1) as [[cv|e] w2]; simpl in C2; [|discriminate].
  rewrite bind_w in Hrun. unfold side_add_item, call_store in Hrun.
  destruct (gcal_add_item cv (w_calls w2)) as [r|e]; [|discriminate].
  rewrite bind_w in Hrun. unfold getitem in Hrun.
  destruct (r !! otk) as [nid'|]; simpl in Hrun; [|discriminate].
  unfold set_registered in Hrun. simpl in Hrun.
  destruct ((if inv then bidict_inv_setitem else bidict_setitem) _ _ _); [|discriminate].
  injection Hrun as _ <-. exists (GCalSideS, cv). split; [exact Ht|].
  simpl. rewrite C2, <- E1. reflexivity.
Qed.

Lemma register_loop_entries_calls inv conv tk otk ty items w w' :
  (conv = convert_tw_to_gcal \/ conv = convert_gcal_to_tw) ->
  register_loop inv GCalSideS conv tk otk ty items w = (Ok tt, w') ->
  exists newt newc, w_table w' = (w_table w ++ newt)%list /\
    w_calls w' = (w_calls w ++ newc)%list /\ length newt = length newc.
Proof.
  intros Hc. revert w. induction items as [|it rest IH]; intros w Hrun; simpl in Hrun.
  { injection Hrun as <-. exists [], []. rewrite !app_nil_r. done. }
  rewrite bind_w in Hrun. unfold getitem in Hrun.
  destruct (it !! tk) as [v|]; simpl in Hrun; [|discriminate].
  rewrite bind_w in Hrun. simpl in Hrun.
  destruct (bool_decide_reflect (VStr (py_str v) ∈ view_keys inv (w_table w))) as [Hin|Hin].
  - apply IH, Hrun.
  - rewrite bind_w in Hrun.
    destruct (register_new inv GCalSideS conv otk ty it v w) as [[u|e] w1] eqn:En;
      [|discriminate].
    destruct (register_new_ok_step inv conv otk ty it v w u w1 Hc Hin En) as (e & c & Ht & Hcl).
    destruct (IH w1 Hrun) as (newt & newc & Ht' & Hc' & Hl).
    exists (e :: newt), (c :: newc). rewrite Ht', Hc', Ht, Hcl, <- !app_assoc.
    simpl. split; [done|]. split; [done|]. lia.
Qed.

(** X11: a completed [register_items] only appends to the table and to the
    store calls, one new table entry for each call made to the store. *)
Theorem register_items_entries_calls (items : list item) (ty : string) (w w' : world) :
  register_items items ty w = (Ok tt, w') ->
  exists newt newc, w_table w' = (w_table w ++ newt)%list /\
    w_calls w' = (w_calls w ++ newc)%list /\ length newt = length newc.
Proof.
  intros Hrun. destruct (decide (ty = "tw")) as [->|Htw].
  { rewrite register_items_tw in Hrun. eapply register_loop_entries_calls; [left; done|exact Hrun]. }
  destruct (decide (ty = "gcal")) as [->|Hg].
  { rewrite register_items_gcal in Hrun. eapply register_loop_entries_calls; [right; done|exact Hrun]. }
  rewrite register_items_other in Hrun by done. discriminate.
Qed.

(** ** [TaskWarriorSide.add_item] when it reaches the store *)


(** ** [TWGCalAggregator.__init__] *)




End Model.

Arguments Ok {A} a.
Arguments Err {A} e.

(* ------------------------------------------------------------------ *)
(** ** Examples on the sample instance *)

Import Sample.

(** The task [{description: "Buy milk", status: "pending", uuid: u-1,
    entry: day 3}] registered from the task side.  The store's add answers
    with an [htmlLink] that numbers the calls. *)
Lemma register_items_bijection_witness :
  let t1 : gmap string (@value cuuid nat) :=
    <["description" := VStr "Buy milk"]> (<["status" := VStr "pending"]>
    (<["uuid" := VUuid U1]> (<["entry" := VDate 3%nat]> ∅))) in
  let gadd : gmap string (@value cuuid nat) -> list (side * gmap string (@value cuuid nat))
             -> result (gmap string (@value cuuid nat)) :=
    fun _ h => Ok {[ "htmlLink" := VStr (pretty (length h)) ]} in
  let tadd : @value cuuid nat -> gmap string (@value cuuid nat)
             -> list (side * gmap string (@value cuuid nat))
             -> result (gmap string (@value cuuid nat)) := fun _ _ _ => Ok ∅ in
  let w0 : @world cuuid nat := mkWorld [] [] [] in
  bij (w_table w0) /\
  bij (w_table (snd (register_items cuuid_str cuuid_parse cdt_str S cformat cparse gadd tadd
                       [t1; t1] "tw" w0))).
Proof.
  intros t1 gadd tadd w0.
  assert (H0 : bij (w_table w0)) by (split; constructor).
  split; [exact H0|].
  exact (proj1 (proj1 (register_items_bijection cuuid_str cuuid_parse cdt_str S cformat cparse
                         gadd tadd [t1; t1] "tw" w0 H0))).
Defined.


(** Registering the sample task a second time, on the table the first run
    left. *)
Lemma register_items_idempotent_witness :
  let t1 : gmap string (@value cuuid nat) :=
    <["description" := VStr "Buy milk"]> (<["status" := VStr "pending"]>
    (<["uuid" := VUuid U1]> (<["entry" := VDate 3%nat]> ∅))) in
  let gadd : gmap string (@value cuuid nat) -> list (side * gmap string (@value cuuid nat))
             -> result (gmap string (@value cuuid nat)) :=
    fun _ h => Ok {[ "htmlLink" := VStr (pretty (length h)) ]} in
  let tadd : @value cuuid nat -> gmap string (@value cuuid nat)
             -> list (side * gmap string (@value cuuid nat))
             -> result (gmap string (@value cuuid nat)) := fun _ _ _ => Ok ∅ in
  let w0 : @world cuuid nat := mkWorld [] [] [] in
  register_items cuuid_str cuuid_parse cdt_str S cformat cparse gadd tadd [t1] "tw" w0
  = (Ok tt, snd (register_items cuuid_str cuuid_parse cdt_str S cformat cparse gadd tadd
                   [t1] "tw" w0)) /\
  register_items cuuid_str cuuid_parse cdt_str S cformat cparse gadd tadd [t1] "tw"
    (snd (register_items cuuid_str cuuid_parse cdt_str S cformat cparse gadd tadd [t1] "tw" w0))
  = (Ok tt, snd (register_items cuuid_str cuuid_parse cdt_str S cformat cparse gadd tadd
                   [t1] "tw" w0)).
Proof.
  intros t1 gadd tadd w0.
  assert (H : register_items cuuid_str cuuid_parse cdt_str S cformat cparse gadd tadd [t1] "tw" w0
              = (Ok tt, snd (register_items cuuid_str cuuid_parse cdt_str S cformat cparse gadd tadd
                               [t1] "tw" w0))) by (vm_compute; reflexivity).
  split; [exact H|].
  exact (register_items_idempotent cuuid_str cuuid_parse cdt_str S cformat cparse gadd tadd
           [t1] "tw" w0 _ H).
Defined.

(** The sample task: it goes to the calendar with end day 4 (entry plus one
    day, as it has no due) and comes back with status [pending] and due 4. *)
Lemma tw_gcal_round_trip_pending_witness :
  let t1 : gmap string (@value cuuid nat) :=
    <["description" := VStr "Buy milk"]> (<["status" := VStr "pending"]>
    (<["uuid" := VUuid U1]> (<["entry" := VDate 3%nat]> ∅))) in
  let gadd : gmap string (@value cuuid nat) -> list (side * gmap string (@value cuuid nat))
             -> result (gmap string (@value cuuid nat)) :=
    fun _ h => Ok {[ "htmlLink" := VStr (pretty (length h)) ]} in
  let tadd : @value cuuid nat -> gmap string (@value cuuid nat)
             -> list (side * gmap string (@value cuuid nat))
             -> result (gmap string (@value cuuid nat)) := fun _ _ _ => Ok ∅ in
  let w0 : @world cuuid nat := mkWorld [] [] [] in
  exists g w1,
    convert_tw_to_gcal cuuid_str cdt_str S cformat t1 w0 = (Ok g, w1) /\
    g !! "end" = Some (VDict [("dateTime", "xxxx")]) /\
    exists t' w2, convert_gcal_to_tw cuuid_parse cparse g w1 = (Ok t', w2) /\
      t' !! "status" = Some (VStr "pending") /\ t' !! "uuid" = Some (VUuid U1) /\
      t' !! "entry" = Some (VDate 3%nat) /\ t' !! "due" = Some (VDate 4%nat).
Proof.
  intros t1 gadd tadd w0.
  destruct (tw_gcal_round_trip_pending cuuid_str cuuid_parse cdt_str S cformat cparse
              t1 (VStr "Buy milk") U1 3%nat None None w0
              eq_refl eq_refl eq_refl eq_refl eq_refl eq_refl eq_refl eq_refl eq_refl eq_refl
              eq_refl eq_refl)
    as [g [w1 [H1 [_ [_ [H4 [_ [t' [w2 [H5 [H6 [H7 [H8 H9]]]]]]]]]]]]].
  exists g, w1. split; [exact H1|]. split; [exact H4|].
  exists t', w2. split; [exact H5|]. split; [exact H6|]. split; [exact H7|].
  split; [exact H8|exact H9].
Defined.

(** The sample task with one annotation ["call mom"]: the round trip keeps
    every key outside [entry, due, id, tags, urgency]. *)
Lemma tw_gcal_round_trip_keys_witness :
  let t2 : gmap string (@value cuuid nat) :=
    <["description" := VStr "Buy milk"]> (<["status" := VStr "pending"]>
    (<["uuid" := VUuid U1]> (<["entry" := VDate 3%nat]>
    (<["annotations" := VList ["call mom"]]> ∅)))) in
  let gadd : gmap string (@value cuuid nat) -> list (side * gmap string (@value cuuid nat))
             -> result (gmap string (@value cuuid nat)) :=
    fun _ h => Ok {[ "htmlLink" := VStr (pretty (length h)) ]} in
  let tadd : @value cuuid nat -> gmap string (@value cuuid nat)
             -> list (side * gmap string (@value cuuid nat))
             -> result (gmap string (@value cuuid nat)) := fun _ _ _ => Ok ∅ in
  let w0 : @world cuuid nat := mkWorld [] [] [] in
  exists g w1 t' w2,
    convert_tw_to_gcal cuuid_str cdt_str S cformat t2 w0 = (Ok g, w1) /\
    convert_gcal_to_tw cuuid_parse cparse g w1 = (Ok t', w2) /\
    forall k, k ∉ ["entry"; "due"; "id"; "tags"; "urgency"] -> t' !! k = t2 !! k.
Proof.
  intros t2 gadd tadd w0.
  assert (HS : "pending" ∈ statuses) by (apply list_elem_of_In; left; reflexivity).
  assert (Hl : Forall ann_ok ["call mom"])
    by (constructor; [unfold ann_ok; split; [|split]; reflexivity|constructor]).
  assert (Hother : forall k, k ∉ ["description"; "status"; "uuid"; "annotations"; "entry"; "due";
                                  "id"; "tags"; "urgency"] -> t2 !! k = None).
  { intros k Hk. unfold t2. rewrite !lookup_insert, lookup_empty.
    repeat case_decide; subst; try reflexivity; exfalso; apply Hk; set_solver. }
  exact (tw_gcal_round_trip_keys cuuid_str cuuid_parse cdt_str S cformat cparse gadd tadd
           t2 (VStr "Buy milk") "pending" U1 3%nat None ["call mom"] w0
           eq_refl eq_refl HS eq_refl eq_refl eq_refl eq_refl Hl Hother
           eq_refl eq_refl eq_refl eq_refl).
Defined.

(** C2's counterexample: the sample task with a [project] field and no
    [annotations] field comes back with [annotations = []] and without its
    project. *)
Lemma tw_gcal_round_trip_changes_keys :
  let t3 : gmap string (@value cuuid nat) :=
    <["description" := VStr "Buy milk"]> (<["status" := VStr "pending"]>
    (<["uuid" := VUuid U1]> (<["entry" := VDate 3%nat]>
    (<["project" := VStr "home"]> ∅)))) in
  let w0 : @world cuuid nat := mkWorld [] [] [] in
  match convert_tw_to_gcal cuuid_str cdt_str S cformat t3 w0 with
  | (Ok g, w1) =>
      match convert_gcal_to_tw cuuid_parse cparse g w1 with
      | (Ok t', _) =>
          t' !! "annotations" = Some (VList []) /\ t3 !! "annotations" = None /\
          t' !! "project" = None /\ t3 !! "project" = Some (VStr "home")
      | (Err _, _) => False
      end
  | (Err _, _) => False
  end.
Proof. vm_compute. repeat split. Qed.

(** A calendar event whose description says [* status: bogus]. *)
Lemma convert_gcal_to_tw_invalid_status_witness :
  let gb : gmap string (@value cuuid nat) :=
    <["summary" := VStr "Buy milk"]>
    (<["description" := VStr (meta_title ++ nl_s ++ "* status: bogus" ++ nl_s ++ "* uuid: u-1")]>
    (<["start" := VDict [("dateTime", "xxx")]]>
    (<["end" := VDict [("dateTime", "xxxx")]]> ∅))) in
  let w0 : @world cuuid nat := mkWorld [] [] [] in
  exists t w', convert_gcal_to_tw cuuid_parse cparse gb w0 = (Ok t, w') /\
    t !! "status" = None.
Proof.
  intros gb w0.
  assert (HS : "bogus" ∉ statuses)
    by (intros H; apply list_elem_of_In in H; simpl in H; intuition congruence).
  destruct (convert_gcal_to_tw_invalid_status cuuid_parse cparse gb w0 [] "bogus" (Some U1) w0
              (VStr "Buy milk") [("dateTime", "xxx")] [("dateTime", "xxxx")]
              eq_refl HS eq_refl eq_refl ltac:(eexists; reflexivity)
              eq_refl ltac:(eexists; reflexivity))
    as [t [w' [H1 [H2 _]]]].
  exists t, w'. split; [exact H1|exact H2].
Defined.

(** C3's counterexample: that event converts to a task with no [status]
    field at all (and one warning logged), not to [status = "pending"]. *)
Lemma convert_gcal_to_tw_bogus_status_dropped :
  let gb : gmap string (@value cuuid nat) :=
    <["summary" := VStr "Buy milk"]>
    (<["description" := VStr (meta_title ++ nl_s ++ "* status: bogus" ++ nl_s ++ "* uuid: u-1")]>
    (<["start" := VDict [("dateTime", "xxx")]]>
    (<["end" := VDict [("dateTime", "xxxx")]]> ∅))) in
  let w0 : @world cuuid nat := mkWorld [] [] [] in
  match convert_gcal_to_tw cuuid_parse cparse gb w0 with
  | (Ok t, w') =>
      t !! "status" = None /\ t !! "status" <> Some (VStr "pending") /\
      w_logs w' = [LWarn "Invalid status bogus in GCal->TW conversion of item. Skipping status:"]
  | (Err _, _) => False
  end.
Proof. vm_compute. split; [reflexivity|]. split; [discriminate|reflexivity]. Qed.

(** The store's add fails on the sample task: the run raises and the table
    stays empty. *)
Lemma register_items_add_failure_witness :
  let t1 : gmap string (@value cuuid nat) :=
    <["description" := VStr "Buy milk"]> (<["status" := VStr "pending"]>
    (<["uuid" := VUuid U1]> (<["entry" := VDate 3%nat]> ∅))) in
  let gfail : gmap string (@value cuuid nat) -> list (side * gmap string (@value cuuid nat))
              -> result (gmap string (@value cuuid nat)) := fun _ _ => Err (AdapterError 0) in
  let tadd : @value cuuid nat -> gmap string (@value cuuid nat)
             -> list (side * gmap string (@value cuuid nat))
             -> result (gmap string (@value cuuid nat)) := fun _ _ _ => Ok ∅ in
  let w0 : @world cuuid nat := mkWorld [] [] [] in
  exists e' w2,
    register_items cuuid_str cuuid_parse cdt_str S cformat cparse gfail tadd [t1] "tw" w0
    = (Err e', w2) /\ w_table w2 = [].
Proof.
  intros t1 gfail tadd w0.
  destruct (register_items_add_failure cuuid_str cuuid_parse cdt_str S cformat cparse gfail tadd
              "tw" [] [] t1 w0 w0 (VUuid U1) (AdapterError 0)
              eq_refl eq_refl ltac:(simpl; apply not_elem_of_nil) (fun _ => eq_refl))
    as [e' [w2 [H1 [H2 _]]]].
  exists e', w2. split; [exact H1|exact H2].
Defined.

(** Adding the sample task from the task side raises [KeyError]. *)
Lemma tw_side_add_item_keyerror_witness :
  let t1 : gmap string (@value cuuid nat) :=
    <["description" := VStr "Buy milk"]> (<["status" := VStr "pending"]>
    (<["uuid" := VUuid U1]> (<["entry" := VDate 3%nat]> ∅))) in
  let tadd : @value cuuid nat -> gmap string (@value cuuid nat)
             -> list (side * gmap string (@value cuuid nat))
             -> result (gmap string (@value cuuid nat)) := fun _ _ _ => Ok ∅ in
  let w0 : @world cuuid nat := mkWorld [] [] [] in
  tw_side_add_item tadd t1 w0 = (Err (KeyError "desscription"), w0).
Proof.
  intros t1 tadd w0.
  exact (tw_side_add_item_keyerror tadd t1 w0 ltac:(eexists; reflexivity) eq_refl).
Defined.


(** The sample timestamps: parsing the calendar format gives the day back. *)
Lemma cparse_cformat (d : nat) : cparse (cformat d) = d.
Proof. induction d as [|d IH]; simpl; [reflexivity|]. unfold cparse in *. rewrite IH. reflexivity. Qed.

(** A calendar event as the task side writes it, with an [htmlLink]: one
    annotation, status [pending], uuid u-1, days 3 to 4. *)
Lemma convert_gcal_to_tw_fields_witness :
  let g1 : gmap string (@value cuuid nat) :=
    <["summary" := VStr "Buy milk"]>
    (<["description" := VStr (meta_title ++ nl_s ++ "* Annotation 1: call mom" ++ nl_s
                               ++ nl_s ++ "* status: pending" ++ nl_s ++ "* uuid: u-1")]>
    (<["start" := VDict [("dateTime", "xxx")]]>
    (<["end" := VDict [("dateTime", "xxxx")]]>
    (<["htmlLink" := VStr "h-1"]> ∅)))) in
  let w0 : @world cuuid nat := mkWorld [] [] [] in
  let r := convert_gcal_to_tw cuuid_parse cparse g1 w0 in
  let t := match fst r with Ok t => t | Err _ => ∅ end in
  r = (Ok t, snd r) /\
  exists anns st u w0', parse_gcal_item_desc cuuid_parse g1 w0 = (Ok (anns, st, u), w0') /\
    t !! "annotations" = Some (VList anns) /\
    t !! "status" = (if bool_decide (st ∈ statuses) then Some (VStr st) else None) /\
    t !! "uuid" = VUuid <$> u /\
    t !! "description" = g1 !! "summary" /\
    is_Some (t !! "entry") /\ is_Some (t !! "due") /\
    (forall k, k ∉ ["annotations"; "status"; "uuid"; "description"; "entry"; "due"] ->
       t !! k = None).
Proof.
  intros g1 w0 r t.
  assert (E : r = (Ok t, snd r)) by (vm_compute; reflexivity).
  split; [exact E|].
  exact (convert_gcal_to_tw_fields cuuid_str cuuid_parse cparse
           (fun _ _ => Ok ∅) (fun _ _ _ => Ok ∅) g1 w0 t (snd r) E).
Defined.

(** The same event: the task it converts to comes back unchanged from the
    calendar and back. *)
Lemma gcal_tw_round_trip_stable_witness :
  let g1 : gmap string (@value cuuid nat) :=
    <["summary" := VStr "Buy milk"]>
    (<["description" := VStr (meta_title ++ nl_s ++ "* Annotation 1: call mom" ++ nl_s
                               ++ nl_s ++ "* status: pending" ++ nl_s ++ "* uuid: u-1")]>
    (<["start" := VDict [("dateTime", "xxx")]]>
    (<["end" := VDict [("dateTime", "xxxx")]]>
    (<["htmlLink" := VStr "h-1"]> ∅)))) in
  let w0 : @world cuuid nat := mkWorld [] [] [] in
  let r := convert_gcal_to_tw cuuid_parse cparse g1 w0 in
  let t := match fst r with Ok t => t | Err _ => ∅ end in
  exists g' w2, convert_tw_to_gcal cuuid_str cdt_str S cformat t (snd r) = (Ok g', snd r) /\
                convert_gcal_to_tw cuuid_parse cparse g' (snd r) = (Ok t, w2).
Proof.
  intros g1 w0 r t.
  apply (gcal_tw_round_trip_stable cuuid_str cuuid_parse cdt_str S cformat cparse g1 w0 t (snd r)).
  - vm_compute. reflexivity.
  - vm_compute. eexists. reflexivity.
  - vm_compute. eexists. reflexivity.
  - intros []; reflexivity.
  - intros []; reflexivity.
  - intros []; reflexivity.
  - intros []; reflexivity.
  - exact cparse_cformat.
Defined.

(** The sample task with an annotation and a [tags] field, compared with
    its own calendar form: [tags] and the missing [due] are reported as
    differing keys, and no shared key has changed. *)
Lemma compare_tw_gcal_items_tw_round_trip_witness :
  let t3 : gmap string (@value cuuid nat) :=
    <["description" := VStr "Buy milk"]> (<["status" := VStr "pending"]>
    (<["uuid" := VUuid U1]> (<["entry" := VDate 3%nat]>
    (<["annotations" := VList ["call mom"]]> (<["tags" := VList ["home"]]> ∅))))) in
  let w0 : @world cuuid nat := mkWorld [] [] [] in
  exists g D C w2,
    convert_tw_to_gcal cuuid_str cdt_str S cformat t3 w0 = (Ok g, w0) /\
    compare_tw_gcal_items cuuid_parse cparse t3 g w0 = (Ok (D, C), w2) /\
    C = ∅ /\
    forall k, k ∈ D <-> (k ∈ ["id"; "tags"; "urgency"] /\ is_Some (t3 !! k)) \/
                        (k = "due" /\ @None nat = None).
Proof.
  intros t3 w0.
  assert (HS : "pending" ∈ statuses) by (apply list_elem_of_In; left; reflexivity).
  assert (Hl : Forall ann_ok ["call mom"])
    by (constructor; [unfold ann_ok; split; [|split]; reflexivity|constructor]).
  assert (Hother : forall k, k ∉ ["description"; "status"; "uuid"; "annotations"; "entry"; "due";
                                  "id"; "tags"; "urgency"] -> t3 !! k = None).
  { intros k Hk. unfold t3. rewrite !lookup_insert_ne, lookup_empty; [reflexivity|..];
      intros Heq; subst; apply Hk; set_solver. }
  exact (compare_tw_gcal_items_tw_round_trip cuuid_str cuuid_parse cdt_str S cformat cparse
           (fun _ _ => Ok ∅) (fun _ _ _ => Ok ∅)
           t3 (VStr "Buy milk") "pending" U1 3%nat None ["call mom"] w0
           eq_refl eq_refl HS eq_refl eq_refl eq_refl eq_refl Hl Hother
           eq_refl eq_refl eq_refl eq_refl eq_refl eq_refl).
Defined.

(** The sample task registered, then a batch of it and a task without a
    uuid: the run stops at the second one with [KeyError('uuid')]. *)
Lemma register_items_missing_id_witness :
  let t1 : gmap string (@value cuuid nat) :=
    <["description" := VStr "Buy milk"]> (<["status" := VStr "pending"]>
    (<["uuid" := VUuid U1]> (<["entry" := VDate 3%nat]> ∅))) in
  let x : gmap string (@value cuuid nat) := {[ "description" := VStr "No id" ]} in
  let gadd : gmap string (@value cuuid nat) -> list (side * gmap string (@value cuuid nat))
             -> result (gmap string (@value cuuid nat)) :=
    fun _ h => Ok {[ "htmlLink" := VStr (pretty (length h)) ]} in
  let tadd : @value cuuid nat -> gmap string (@value cuuid nat)
             -> list (side * gmap string (@value cuuid nat))
             -> result (gmap string (@value cuuid nat)) := fun _ _ _ => Ok ∅ in
  let w0 : @world cuuid nat := mkWorld [] [] [] in
  let w1 := snd (register_items cuuid_str cuuid_parse cdt_str S cformat cparse gadd tadd
                   [t1] "tw" w0) in
  register_items cuuid_str cuuid_parse cdt_str S cformat cparse gadd tadd [t1] "tw" w0
  = (Ok tt, w1) /\
  register_items cuuid_str cuuid_parse cdt_str S cformat cparse gadd tadd ([t1] ++ x :: [t1])
    "tw" w0 = (Err (KeyError "uuid"), w1).
Proof.
  intros t1 x gadd tadd w0 w1.
  assert (H : register_items cuuid_str cuuid_parse cdt_str S cformat cparse gadd tadd [t1] "tw" w0
              = (Ok tt, w1)) by (vm_compute; reflexivity).
  split; [exact H|].
  exact (register_items_missing_id cuuid_str cuuid_parse cdt_str S cformat cparse gadd tadd
           "tw" [t1] [t1] x w0 w1 H eq_refl).
Defined.

(** The sample task listed twice after a run that registered it. *)
Lemma register_items_repeated_witness :
  let t1 : gmap string (@value cuuid nat) :=
    <["description" := VStr "Buy milk"]> (<["status" := VStr "pending"]>
    (<["uuid" := VUuid U1]> (<["entry" := VDate 3%nat]> ∅))) in
  let gadd : gmap string (@value cuuid nat) -> list (side * gmap string (@value cuuid nat))
             -> result (gmap string (@value cuuid nat)) :=
    fun _ h => Ok {[ "htmlLink" := VStr (pretty (length h)) ]} in
  let tadd : @value cuuid nat -> gmap string (@value cuuid nat)
             -> list (side * gmap string (@value cuuid nat))
             -> result (gmap string (@value cuuid nat)) := fun _ _ _ => Ok ∅ in
  let w0 : @world cuuid nat := mkWorld [] [] [] in
  let w1 := snd (register_items cuuid_str cuuid_parse cdt_str S cformat cparse gadd tadd
                   [t1] "tw" w0) in
  register_items cuuid_str cuuid_parse cdt_str S cformat cparse gadd tadd [t1] "tw" w0
  = (Ok tt, w1) /\
  register_items cuuid_str cuuid_parse cdt_str S cformat cparse gadd tadd ([t1] ++ [t1; t1])
    "tw" w0 = (Ok tt, w1).
Proof.
  intros t1 gadd tadd w0 w1.
  assert (H : register_items cuuid_str cuuid_parse cdt_str S cformat cparse gadd tadd [t1] "tw" w0
              = (Ok tt, w1)) by (vm_compute; reflexivity).
  split; [exact H|].
  apply (register_items_repeated cuuid_str cuuid_parse cdt_str S cformat cparse gadd tadd
           [t1] [t1; t1] "tw" w0 w1 H).
  intros y Hy. apply elem_of_cons in Hy as [->|Hy]; [left|].
  apply list_elem_of_singleton in Hy as ->. left.
Defined.

(** The sample task registered from the task side: its uuid's string form
    is a key of the table. *)
Lemma register_items_ids_registered_witness :
  let t1 : gmap string (@value cuuid nat) :=
    <["description" := VStr "Buy milk"]> (<["status" := VStr "pending"]>
    (<["uuid" := VUuid U1]> (<["entry" := VDate 3%nat]> ∅))) in
  let gadd : gmap string (@value cuuid nat) -> list (side * gmap string (@value cuuid nat))
             -> result (gmap string (@value cuuid nat)) :=
    fun _ h => Ok {[ "htmlLink" := VStr (pretty (length h)) ]} in
  let tadd : @value cuuid nat -> gmap string (@value cuuid nat)
             -> list (side * gmap string (@value cuuid nat))
             -> result (gmap string (@value cuuid nat)) := fun _ _ _ => Ok ∅ in
  let w0 : @world cuuid nat := mkWorld [] [] [] in
  let w1 := snd (register_items cuuid_str cuuid_parse cdt_str S cformat cparse gadd tadd
                   [t1] "tw" w0) in
  register_items cuuid_str cuuid_parse cdt_str S cformat cparse gadd tadd [t1] "tw" w0
  = (Ok tt, w1) /\
  exists v, t1 !! "uuid" = Some v /\
    VStr (py_str cuuid_str cdt_str v) ∈ view_keys false (w_table w1).
Proof.
  intros t1 gadd tadd w0 w1.
  assert (H : register_items cuuid_str cuuid_parse cdt_str S cformat cparse gadd tadd [t1] "tw" w0
              = (Ok tt, w1)) by (vm_compute; reflexivity).
  split; [exact H|].
  exact (register_items_ids_registered cuuid_str cuuid_parse cdt_str S cformat cparse gadd tadd
           [t1] "tw" w0 w1 H t1 ltac:(left)).
Defined.

(** The sample task and a second one with uuid u-2, in one batch with a
    repetition: two calls, two entries. *)
Lemma register_items_entries_calls_witness :
  let t1 : gmap string (@value cuuid nat) :=
    <["description" := VStr "Buy milk"]> (<["status" := VStr "pending"]>
    (<["uuid" := VUuid U1]> (<["entry" := VDate 3%nat]> ∅))) in
  let t4 : gmap string (@value cuuid nat) :=
    <["description" := VStr "Pay rent"]> (<["status" := VStr "waiting"]>
    (<["uuid" := VUuid U2]> (<["entry" := VDate 5%nat]> ∅))) in
  let gadd : gmap string (@value cuuid nat) -> list (side * gmap string (@value cuuid nat))
             -> result (gmap string (@value cuuid nat)) :=
    fun _ h => Ok {[ "htmlLink" := VStr (pretty (length h)) ]} in
  let tadd : @value cuuid nat -> gmap string (@value cuuid nat)
             -> list (side * gmap string (@value cuuid nat))
             -> result (gmap string (@value cuuid nat)) := fun _ _ _ => Ok ∅ in
  let w0 : @world cuuid nat := mkWorld [] [] [] in
  let w1 := snd (register_items cuuid_str cuuid_parse cdt_str S cformat cparse gadd tadd
                   [t1; t4; t1] "tw" w0) in
  register_items cuuid_str cuuid_parse cdt_str S cformat cparse gadd tadd [t1; t4; t1] "tw" w0
  = (Ok tt, w1) /\
  exists newt newc, w_table w1 = (w_table w0 ++ newt)%list /\
    w_calls w1 = (w_calls w0 ++ newc)%list /\ length newt = length newc.
Proof.
  intros t1 t4 gadd tadd w0 w1.
  assert (H : register_items cuuid_str cuuid_parse cdt_str S cformat cparse gadd tadd
                [t1; t4; t1] "tw" w0 = (Ok tt, w1)) by (vm_compute; reflexivity).
  split; [exact H|].
  exact (register_items_entries_calls cuuid_str cuuid_parse cdt_str S cformat cparse gadd tadd
           [t1; t4; t1] "tw" w0 w1 H).
Defined.

